(** * boolean_search.py: a shallow embedding and its verified properties

    The development follows [scripts/boolean_search.py].  Python values that
    come from JSON (the configuration file, the search API's response, the
    result dicts built from it) are kept dynamically typed, as the script
    handles them; exceptions are explicit; the effects of the script (HTTP
    posts, prints, sleeps, file writes) are recorded in a trace.

    Scope of the model:
    - a Python [str] is a sequence of code points; the model keeps the code
      points U+0000..U+00FF, one [ascii] each (Latin-1);
    - JSON numbers are integers (no floats);
    - the [requests] and [json] libraries are modelled by what they return:
      an HTTP exchange is a [post_outcome], a parsed body an [option json];
    - the file system is part of the environment: what a path holds, and
      the error that reading or writing it raises, if any. *)

From Stdlib Require Import ZArith Ascii String DecimalString.
From stdpp Require Import base option list countable gmap strings.

#[local] Set Warnings "-register-all,-clear-no-such-hyp".
#[local] Open Scope string_scope.
#[local] Open Scope Z_scope.
#[local] Open Scope list_scope.

(** ** Python strings *)

Module PyStr.

Definition chr (n : nat) : string := String (ascii_of_nat n) "".

Definition nl : string := chr 10.

(** [str.lower()] on one code point of U+0000..U+00FF: A-Z and the Latin-1
    capitals (all of U+00C0..U+00DE but the multiplication sign) move up by 32. *)
Definition lower_char (c : ascii) : ascii :=
  let n := nat_of_ascii c in
  if ((65 <=? n) && (n <=? 90) || (192 <=? n) && (n <=? 222) && negb (n =? 215))%nat
  then ascii_of_nat (n + 32)
  else c.

Fixpoint lower (s : string) : string :=
  match s with
  | EmptyString => EmptyString
  | String c s' => String (lower_char c) (lower s')
  end.

(** [s.startswith(p)] *)
Fixpoint startswith (p s : string) : bool :=
  match p, s with
  | EmptyString, _ => true
  | String _ _, EmptyString => false
  | String a p', String b s' => Ascii.eqb a b && startswith p' s'
  end.

(** [p in s] on two strings: [p] occurs in [s] as a substring. *)
Fixpoint contains (p s : string) : bool :=
  startswith p s ||
  match s with
  | EmptyString => false
  | String _ s' => contains p s'
  end.

(** [s[:n]] *)
Fixpoint take (n : nat) (s : string) : string :=
  match n, s with
  | S n', String c s' => String c (take n' s')
  | _, _ => EmptyString
  end.

(** [sep.join(l)] *)
Fixpoint join (sep : string) (l : list string) : string :=
  match l with
  | [] => ""
  | [x] => x
  | x :: l' => x +:+ sep +:+ join sep l'
  end.

(** [str(n)] for an integer. *)
Definition of_Z (n : Z) : string := NilZero.string_of_int (Z.to_int n).

Definition of_nat (n : nat) : string := of_Z (Z.of_nat n).

(** [str.isspace()] on U+0000..U+00FF: tab, LF, VT, FF, CR, FS, GS, RS, US,
    space, NEL and the no-break space. *)
Definition is_space (c : ascii) : bool :=
  let n := nat_of_ascii c in
  ((9 <=? n) && (n <=? 13) || (28 <=? n) && (n <=? 32) || (n =? 133) || (n =? 160))%nat.

(** The line boundaries of [str.splitlines()] on U+0000..U+00FF: LF, VT, FF,
    CR, FS, GS, RS and NEL (CR LF counts as one). *)
Definition is_linebreak (c : ascii) : bool :=
  let n := nat_of_ascii c in
  ((10 <=? n) && (n <=? 13) || (28 <=? n) && (n <=? 30) || (n =? 133))%nat.

Fixpoint lstrip (s : string) : string :=
  match s with
  | String c s' => if is_space c then lstrip s' else s
  | EmptyString => EmptyString
  end.

Fixpoint rstrip (s : string) : string :=
  match s with
  | EmptyString => EmptyString
  | String c s' =>
      match rstrip s' with
      | EmptyString => if is_space c then EmptyString else String c EmptyString
      | r => String c r
      end
  end.

(** [s.strip()] *)
Definition strip (s : string) : string := rstrip (lstrip s).

(** [s.splitlines()]: [cur] is the line being read, in reverse. *)
Fixpoint splitlines_from (cur : string) (s : string) : list string :=
  match s with
  | EmptyString =>
      match cur with EmptyString => [] | _ => [String.rev cur] end
  | String c s' =>
      if is_linebreak c then
        String.rev cur ::
          match s' with
          | String c' s'' =>
              if ((nat_of_ascii c =? 13) && (nat_of_ascii c' =? 10))%nat
              then splitlines_from EmptyString s''
              else splitlines_from EmptyString s'
          | EmptyString => []
          end
      else splitlines_from (String c cur) s'
  end.

Definition splitlines (s : string) : list string := splitlines_from EmptyString s.

End PyStr.

(** ** Python values, exceptions, results *)

(** A value as [json.load] returns it.  [JNull] is [None]; a [JObj] is a
    [dict] with [str] keys, looked up by the first binding of a key. *)
Inductive json : Type :=
  | JNull
  | JBool (b : bool)
  | JNum (n : Z)
  | JStr (s : string)
  | JArr (l : list json)
  | JObj (m : list (string * json)).

Definition pydict : Type := list (string * json).

(** What the [requests] library hands back for a response: the status code
    and what [resp.json()] gives ([None]: it raises [JSONDecodeError]). *)
Record response : Type := mkResponse {
  status_code : Z;
  body : option json
}.

Inductive exn : Type :=
  | HTTPError (resp : option response)
  | RequestException          (* ConnectionError, Timeout, ... *)
  | JSONDecodeError
  | FileNotFoundError
  | AttributeError
  | TypeError
  | KeyError
  | OverflowError
  | OSError                   (* PermissionError, IsADirectoryError, ... *)
  | SystemExit (code : Z).

(** [isinstance(e, Exception)]: [SystemExit] derives from [BaseException] only. *)
Definition is_Exception (e : exn) : bool :=
  match e with
  | SystemExit _ => false
  | _ => true
  end.

Inductive result (A : Type) : Type :=
  | Ok (a : A)
  | Raise (e : exn).

Arguments Ok {A} a.
Arguments Raise {A} e.

Definition rbind {A B} (r : result A) (k : A -> result B) : result B :=
  match r with
  | Ok a => k a
  | Raise e => Raise e
  end.

Declare Scope py_scope.
Delimit Scope py_scope with py.

Notation "x <- r ;; k" := (rbind r (fun x => k))
  (at level 100, r at next level, right associativity) : py_scope.

#[local] Open Scope py_scope.

(** A list comprehension whose element expression can raise: the first
    exception ends it. *)
Fixpoint rmap {A B} (f : A -> result B) (l : list A) : result (list B) :=
  match l with
  | [] => Ok []
  | x :: l' => y <- f x ;; ys <- rmap f l' ;; Ok (y :: ys)
  end.

(** [[x for x in l if f(x)]] with a condition that can raise. *)
Fixpoint rfilter {A} (f : A -> result bool) (l : list A) : result (list A) :=
  match l with
  | [] => Ok []
  | x :: l' => b <- f x ;; ys <- rfilter f l' ;; Ok (if b then x :: ys else ys)
  end.

Module Py.

(** [bool(v)] *)
Definition truthy (v : json) : bool :=
  match v with
  | JNull => false
  | JBool b => b
  | JNum n => negb (n =? 0)
  | JStr s => negb (String.eqb s "")
  | JArr l => match l with [] => false | _ => true end
  | JObj m => match m with [] => false | _ => true end
  end.

(** [a or b] *)
Definition or_ (a b : json) : json := if truthy a then a else b.

Fixpoint lookup (k : string) (m : pydict) : option json :=
  match m with
  | [] => None
  | (k', v) :: m' => if String.eqb k k' then Some v else lookup k m'
  end.

(** [d.get(k, dflt)] on a dict. *)
Definition dict_get (d : pydict) (k : string) (dflt : json) : json :=
  default dflt (lookup k d).

(** [v.get(k, dflt)] on any value: only a dict has the method. *)
Definition get (v : json) (k : string) (dflt : json) : result json :=
  match v with
  | JObj m => Ok (dict_get m k dflt)
  | _ => Raise AttributeError
  end.

(** [v[k]] with a string key, as the script uses it (on the elements of
    [queries], which went through [.get] before): [KeyError] when absent. *)
Definition subscript (v : json) (k : string) : result json :=
  match v with
  | JObj m => match lookup k m with Some x => Ok x | None => Raise KeyError end
  | _ => Raise TypeError
  end.

(** [v.lower()]: a [str] method. *)
Definition lower (v : json) : result string :=
  match v with
  | JStr s => Ok (PyStr.lower s)
  | _ => Raise AttributeError
  end.

Fixpoint chars (s : string) : list json :=
  match s with
  | EmptyString => []
  | String c s' => JStr (String c EmptyString) :: chars s'
  end.

(** [for r in v]: the elements of a list, the characters of a string, the
    keys of a dict; the other values are not iterable. *)
Definition iter (v : json) : result (list json) :=
  match v with
  | JArr l => Ok l
  | JStr s => Ok (chars s)
  | JObj m => Ok (map (fun kv => JStr (fst kv)) m)
  | _ => Raise TypeError
  end.

(** [v[:n]]: strings and lists are sliced; numbers, booleans and [None] are
    not subscriptable, and a dict rejects a slice as a key. *)
Definition slice_to (n : nat) (v : json) : result json :=
  match v with
  | JStr s => Ok (JStr (PyStr.take n s))
  | JArr l => Ok (JArr (firstn n l))
  | _ => Raise TypeError
  end.

(** [min(v, k)] for an integer [k]: the first of the smallest, so [v] itself
    unless [k < v]; a [bool] compares as 0 or 1; other types do not compare
    with an [int]. *)
Definition min_int (v : json) (k : Z) : result json :=
  match v with
  | JNum n => Ok (JNum (if k <? n then k else n))
  | JBool b => Ok (if k <? Z.b2z b then JNum k else JBool b)
  | _ => Raise TypeError
  end.

(** [v > k] for an integer [k]. *)
Definition gt_int (v : json) (k : Z) : result bool :=
  match v with
  | JNum n => Ok (k <? n)
  | JBool b => Ok (k <? Z.b2z b)
  | _ => Raise TypeError
  end.

(** The key under which a value sits in a [set] or [dict]: equal values
    ([True == 1], [False == 0]) share it, lists and dicts are unhashable. *)
Inductive hkey : Type :=
  | HNone
  | HInt (n : Z)
  | HStr (s : string).

Definition hash (v : json) : result hkey :=
  match v with
  | JNull => Ok HNone
  | JBool b => Ok (HInt (Z.b2z b))
  | JNum n => Ok (HInt n)
  | JStr s => Ok (HStr s)
  | _ => Raise TypeError
  end.

Definition hex_digit (n : nat) : string :=
  String.substring n 1 "0123456789abcdef".

(** [repr(s)] of a string: single quotes unless the string has one and no
    double quote; the quote and the backslash are escaped, so are the
    characters that are not printable. *)
Definition repr_char (quote : ascii) (c : ascii) : string :=
  let n := nat_of_ascii c in
  if (Ascii.eqb c quote || (n =? 92))%nat then String "\" (String c "")
  else if (n =? 9)%nat then "\t"
  else if (n =? 10)%nat then "\n"
  else if (n =? 13)%nat then "\r"
  else if ((n <? 32) || (n =? 127) || (128 <=? n) && (n <=? 160) || (n =? 173))%nat
  then "\x" +:+ hex_digit (n / 16) +:+ hex_digit (n mod 16)
  else String c "".

Fixpoint repr_chars (quote : ascii) (s : string) : string :=
  match s with
  | EmptyString => EmptyString
  | String c s' => repr_char quote c +:+ repr_chars quote s'
  end.

Definition repr_str (s : string) : string :=
  let quote :=
    if PyStr.contains "'" s && negb (PyStr.contains (PyStr.chr 34) s)
    then ascii_of_nat 34 else ascii_of_nat 39 in
  String quote (repr_chars quote s) +:+ String quote "".

(** [repr(v)] *)
Fixpoint repr (v : json) : string :=
  match v with
  | JNull => "None"
  | JBool true => "True"
  | JBool false => "False"
  | JNum n => PyStr.of_Z n
  | JStr s => repr_str s
  | JArr l => "[" +:+ PyStr.join ", " (map repr l) +:+ "]"
  | JObj m =>
      "{" +:+ PyStr.join ", " (map (fun kv => repr_str (fst kv) +:+ ": " +:+ repr (snd kv)) m) +:+ "}"
  end.

(** [str(v)], which an f-string applies to each value it interpolates. *)
Definition str (v : json) : string :=
  match v with
  | JStr s => s
  | _ => repr v
  end.

End Py.

#[global] Instance hkey_eq_dec : EqDecision Py.hkey.
Proof. solve_decision. Defined.

#[global] Instance hkey_countable : Countable Py.hkey.
Proof.
  refine (inj_countable'
    (fun k => match k with
              | Py.HNone => inl tt
              | Py.HInt n => inr (inl n)
              | Py.HStr s => inr (inr s)
              end)
    (fun x => match x with
              | inl _ => Py.HNone
              | inr (inl n) => Py.HInt n
              | inr (inr s) => Py.HStr s
              end) _).
  intros k. destruct k; reflexivity.
Defined.

(** ** Effects: the trace of a run *)

(** The JSON document of the request, [payload] in [run_query]. *)
Record payload : Type := mkPayload {
  p_api_key : string;
  p_query : json;
  p_search_depth : string;
  p_max_results : json;
  p_days : json
}.

(** [msg] of the generic HTTP warning: the [detail] field of the error
    document, or [str(exc)]. *)
Inductive http_msg : Type :=
  | Detail (v : json)
  | StrExc (e : exn).

(** One constructor for each message the script prints to [sys.stderr]. *)
Inductive log_line : Type :=
  | LogInvalidKey                         (* ERROR: Invalid Tavily API key *)
  | LogRateLimit                          (* WARNING: Tavily rate limit hit *)
  | LogHTTP (status : option Z) (msg : http_msg)   (* WARNING: HTTP status: msg *)
  | LogQueryFailed (exc : exn)            (* WARNING: Query failed (exc), skipping *)
  | LogConfigNotFound (path : string)     (* ERROR: Config not found at path *)
  | LogNoEnabled                          (* No enabled queries found in config *)
  | LogSetup                              (* ERROR: BOOLEAN_TAVILY_API_KEY not set. + how to get one *)
  | LogRunning (name : json)              (* Running: name *)
  | LogCounts (n_raw n_job n_new : nat)   (* raw results, job postings, new *)
  | LogSummary (total_new n_queries : nat).

(** What the script prints to standard output. *)
Inductive out_line : Type :=
  | DryRunHeader (n_queries : nat) (days_back : json)
  | DryRunQuery (name qstring : json)
  | Report (text : string).

Inductive event : Type :=
  | Post (p : payload)                    (* requests.post(TAVILY_ENDPOINT, json=p, timeout=20) *)
  | Stderr (l : log_line)
  | Stdout (o : out_line)
  | Sleep (d : json)                      (* time.sleep(d) *)
  | WriteText (path text : string).       (* Path(path).write_text(text) *)

Definition trace : Type := list event.

(** A computation reads the trace so far, extends it, and returns or raises. *)
Definition M (A : Type) : Type := trace -> result A * trace.

Definition ret {A} (a : A) : M A := fun tr => (Ok a, tr).

Definition bind {A B} (c : M A) (k : A -> M B) : M B :=
  fun tr =>
    match c tr with
    | (Ok a, tr') => k a tr'
    | (Raise e, tr') => (Raise e, tr')
    end.

Notation "x <~ c ;; k" := (bind c (fun x => k))
  (at level 100, c at next level, right associativity) : py_scope.
Notation "c ;;; k" := (bind c (fun _ => k))
  (at level 100, right associativity) : py_scope.

Definition lift {A} (r : result A) : M A := fun tr => (r, tr).

Definition emit (e : event) : M unit := fun tr => (Ok tt, tr ++ [e]).

Definition log (l : log_line) : M unit := emit (Stderr l).

(** [sys.exit(code)] *)
Definition sys_exit {A} (code : Z) : M A := lift (Raise (SystemExit code)).

(** [try: body / except ...: handler]; [handler e] is [None] when no
    [except] clause matches [e]. *)
Definition try_except {A} (body : M A) (handler : exn -> option (M A)) : M A :=
  fun tr =>
    match body tr with
    | (Ok a, tr') => (Ok a, tr')
    | (Raise e, tr') =>
        match handler e with
        | Some h => h tr'
        | None => (Raise e, tr')
        end
    end.

(** [for x in l: f(x)] *)
Fixpoint mfor {A} (l : list A) (f : A -> M unit) : M unit :=
  match l with
  | [] => ret tt
  | x :: l' => f x ;;; mfor l' f
  end.

(** The longest pause [time.sleep] takes: it counts nanoseconds in a signed
    64-bit integer, and raises [OverflowError] for more seconds than fit. *)
Definition max_sleep : Z := 9223372036.

(** [time.sleep(d)], for a [d] that passed [d > 0]. *)
Definition time_sleep (d : json) : M unit :=
  match d with
  | JNum n => if n <=? max_sleep then emit (Sleep d) else lift (Raise OverflowError)
  | _ => emit (Sleep d)
  end.

(** The status a process running [main()] ends with. *)
Definition exit_status {A} (r : result A) : Z :=
  match r with
  | Ok _ => 0
  | Raise (SystemExit code) => code
  | Raise _ => 1
  end.

(** ** The world outside the script *)

(** What one [requests.post] does. *)
Inductive post_outcome : Type :=
  | PostRaises (e : exn)
  | PostReturns (r : response).

(** The search API as the run meets it: the outcome of the [n]-th post of
    the run, counted from 0. *)
Definition network : Type := nat -> post_outcome.

(** A file read by [json.load(open(path))]. *)
Inductive json_file : Type :=
  | NoFile
  | NotJSON
  | JSONFile (j : json).

Record environment : Type := mkEnv {
  net : network;
  json_files : string -> json_file;
  text_files : string -> option string;   (* [None]: the path does not exist *)
  today : string;                         (* date.today().isoformat() *)
  read_error : string -> option exn;      (* what [read_text] raises on a path that exists *)
  write_error : string -> option exn      (* what [write_text] raises on a path *)
}.

(** The command line after [parser.parse_args()]. *)
Record args : Type := mkArgs {
  a_config : string;
  a_history : string;
  a_output : option string;
  a_api_key : string;
  a_dry_run : bool
}.

(** [--api-key], whose default is
    [os.environ.get("BOOLEAN_TAVILY_API_KEY", "")]. *)
Definition resolve_api_key (flag env_var : option string) : string :=
  match flag with
  | Some k => k
  | None => default "" env_var
  end.

Fixpoint posts (tr : trace) : list payload :=
  match tr with
  | [] => []
  | Post p :: tr' => p :: posts tr'
  | _ :: tr' => posts tr'
  end.

Definition requests_post (nw : network) (p : payload) : M response :=
  fun tr =>
    match nw (length (posts tr)) with
    | PostRaises e => (Raise e, tr ++ [Post p])
    | PostReturns r => (Ok r, tr ++ [Post p])
    end.

(** [resp.raise_for_status()]: [HTTPError] for a 4xx or 5xx status. *)
Definition raise_for_status (r : response) : result unit :=
  if (400 <=? status_code r) && (status_code r <? 600)
  then Raise (HTTPError (Some r))
  else Ok tt.

(** [resp.json()] *)
Definition response_json (r : response) : result json :=
  match body r with
  | Some j => Ok j
  | None => Raise JSONDecodeError
  end.

(** ** The script *)

Definition ATS_JOB_PATTERNS : list string :=
  [ "greenhouse.io";
    "lever.co";
    "myworkdayjobs.com";
    "careers.icims.com";
    "/jobs/";
    "/job/";
    "/careers/";
    "/opening/";
    "/apply/";
    "/position/" ].

Definition load_config (env : environment) (config_path : string) : result json :=
  match json_files env config_path with
  | NoFile => Raise FileNotFoundError
  | NotJSON => Raise JSONDecodeError
  | JSONFile j => Ok j
  end.

Definition nonempty (s : string) : bool := negb (String.eqb s "").

(** The set [load_job_history] returns when the file, if there is one, can
    be read. *)
Definition load_job_history (env : environment) (history_path : string) : gset Py.hkey :=
  match text_files env history_path with
  | None => ∅
  | Some text =>
      list_to_set
        (map (fun line => Py.HStr (PyStr.strip line))
           (List.filter (fun line => nonempty (PyStr.strip line)) (PyStr.splitlines text)))
  end.

(** The call [load_job_history(history_path)]: [p.read_text()] may raise on
    a path that exists. *)
Definition read_job_history (env : environment) (history_path : string)
  : result (gset Py.hkey) :=
  match text_files env history_path, read_error env history_path with
  | Some _, Some e => Raise e
  | _, _ => Ok (load_job_history env history_path)
  end.

(** [Path(path).write_text(text)] *)
Definition write_text (env : environment) (path text : string) : M unit :=
  match write_error env path with
  | Some e => lift (Raise e)
  | None => emit (WriteText path text)
  end.

(** The dict built for one element [r] of [results]. *)
Definition result_dict (r : json) : result pydict :=
  url <- Py.get r "url" (JStr "") ;;
  title <- Py.get r "title" (JStr "") ;;
  content <- Py.get r "content" (JStr "") ;;
  description <- Py.slice_to 200 (Py.or_ content (JStr "")) ;;
  Ok [ ("url", url); ("title", title); ("description", description) ].

(** The [try] block of [run_query] once [requests.post] has returned. *)
Definition parse_response (resp : response) : result (list pydict) :=
  _ <- raise_for_status resp ;;
  doc <- response_json resp ;;
  results <- Py.get doc "results" (JArr []) ;;
  rs <- Py.iter results ;;
  rmap result_dict rs.

(** The [try] block of [run_query]. *)
Definition run_query_try (nw : network) (p : payload) : M (list pydict) :=
  resp <~ requests_post nw p ;;
  lift (parse_response resp).

(** [msg] in the [else] branch of the [HTTPError] handler. *)
Definition http_error_msg (exc : exn) (resp : option response) : http_msg :=
  let attempt :=
    r <- match resp with Some r => Ok r | None => Raise AttributeError end ;;
    doc <- response_json r ;;
    match doc with
    | JObj m => Ok (match Py.lookup "detail" m with Some v => Detail v | None => StrExc exc end)
    | _ => Raise AttributeError
    end in
  match attempt with
  | Ok msg => msg
  | Raise _ => StrExc exc
  end.

Definition run_query_except (exc : exn) : option (M (list pydict)) :=
  match exc with
  | HTTPError resp =>
      let status := status_code <$> resp in
      Some (
        (match status with
         | Some 401 => log LogInvalidKey
         | Some 429 => log LogRateLimit
         | _ => log (LogHTTP status (http_error_msg exc resp))
         end) ;;;
        ret [])
  | _ =>
      if is_Exception exc
      then Some (log (LogQueryFailed exc) ;;; ret [])
      else None
  end.

(** [payload] in [run_query]. *)
Definition request_payload
    (query_string : json) (num_results : json) (api_key : string) (days_back : json)
  : result payload :=
  max_results <- Py.min_int num_results 20 ;;
  Ok {| p_api_key := api_key;
        p_query := query_string;
        p_search_depth := "basic";
        p_max_results := max_results;
        p_days := days_back |}.

Definition run_query (nw : network)
    (query_string : json) (num_results : json) (api_key : string) (days_back : json)
  : M (list pydict) :=
  p <~ lift (request_payload query_string num_results api_key days_back) ;;
  try_except (run_query_try nw p) run_query_except.

Definition bad_signals : list string :=
  [ "/blog/"; "/news/"; "/press/"; "/about/"; "/company/"; "/search?" ].

Definition job_title_signals : list string :=
  [ "manager"; "director"; "engineer"; "analyst";
    "specialist"; "lead"; "associate"; "coordinator" ].

Definition is_job_posting (item : pydict) : result bool :=
  url <- Py.lower (Py.or_ (Py.dict_get item "url" JNull) (JStr "")) ;;
  title <- Py.lower (Py.or_ (Py.dict_get item "title" JNull) (JStr "")) ;;
  if existsb (fun pattern => PyStr.contains pattern url) ATS_JOB_PATTERNS then Ok true
  else if existsb (fun s => PyStr.contains s url) bad_signals then Ok false
  else Ok (existsb (fun sig => PyStr.contains sig title) job_title_signals).

(** [r.get("url") not in seen_urls] *)
Definition url_not_in (seen_urls : gset Py.hkey) (r : pydict) : result bool :=
  k <- Py.hash (Py.dict_get r "url" JNull) ;;
  Ok (negb (bool_decide (k ∈ seen_urls))).

(** The function receives the set object itself; the second component is the
    set as the call leaves it. *)
Definition filter_new_results (results : list pydict) (seen_urls : gset Py.hkey)
  : result (list pydict * gset Py.hkey) :=
  new <- rfilter (url_not_in seen_urls) results ;;
  Ok (new, seen_urls).

(** [results_by_query]: a dict keeps its keys in insertion order; assigning
    to a key that is already there keeps the key's place and replaces the
    value. *)
Definition odict : Type := list (json * list pydict).

Definition same_key (k : Py.hkey) (key : json) : bool :=
  match Py.hash key with
  | Ok k' => bool_decide (k = k')
  | Raise _ => false
  end.

Fixpoint odict_insert (k : Py.hkey) (key : json) (v : list pydict) (d : odict) : odict :=
  match d with
  | [] => [(key, v)]
  | (key', v') :: d' =>
      if same_key k key' then (key', v) :: d'
      else (key', v') :: odict_insert k key v d'
  end.

(** [d[key] = v] *)
Definition odict_set (d : odict) (key : json) (v : list pydict) : result odict :=
  k <- Py.hash key ;;
  Ok (odict_insert k key v d).

Definition no_results_line : string :=
  "No new job postings found via Boolean search today.".

Definition header_lines (run_date : string) : list string :=
  [ "=== BOOLEAN SEARCH RESULTS - " +:+ run_date +:+ " ===";
    "Source: Direct ATS search via Tavily (Greenhouse, Lever, Workday, ICIMS)";
    "" ].

(** The five lines of result number [i]. *)
Definition item_lines (i : nat) (item : pydict) : list string :=
  [ "--- Result " +:+ PyStr.of_nat i +:+ " ---";
    "Title: " +:+ Py.str (Py.dict_get item "title" (JStr ""));
    "URL: " +:+ Py.str (Py.dict_get item "url" (JStr ""));
    "Snippet: " +:+ Py.str (Py.dict_get item "description" (JStr ""));
    "---" ].

(** [for i, item in enumerate(results, i): lines += ...] *)
Fixpoint results_lines (i : nat) (results : list pydict) : list string :=
  match results with
  | [] => []
  | item :: rest => item_lines i item ++ results_lines (S i) rest
  end.

(** One turn of the loop over [results_by_query.items()]. *)
Definition query_lines (entry : json * list pydict) : list string :=
  let '(query_name, results) := entry in
  match results with
  | [] => []
  | _ =>
      ("Query: " +:+ PyStr.chr 34 +:+ Py.str query_name +:+ PyStr.chr 34)
        :: results_lines 1 results ++ [""]
  end.

(** [lines] when [format_as_text_block] returns. *)
Definition format_lines (results_by_query : odict) (run_date : string) : list string :=
  let lines := header_lines run_date in
  let total := list_sum (map (fun e => length (snd e)) results_by_query) in
  if (total =? 0)%nat then lines ++ [no_results_line]
  else lines ++ concat (map query_lines results_by_query).

Definition format_as_text_block (results_by_query : odict) (run_date : string) : string :=
  PyStr.join PyStr.nl (format_lines results_by_query run_date).

(** The variables the query loop of [main] updates. *)
Record loop_state : Type := mkLoop {
  seen_urls : gset Py.hkey;
  results_by_query : odict;
  total_new : nat
}.

(** [for r in new_results: seen_urls.add(r.get("url"))] *)
Fixpoint add_urls (seen : gset Py.hkey) (new_results : list pydict) : result (gset Py.hkey) :=
  match new_results with
  | [] => Ok seen
  | r :: rest =>
      k <- Py.hash (Py.dict_get r "url" JNull) ;;
      add_urls (seen ∪ {[ k ]}) rest
  end.

(** The body of the loop for the query [q] at index [i] of [n]. *)
Definition query_step (env : environment) (num_results delay days_back : json)
    (api_key : string) (n i : nat) (q : json) (st : loop_state) : M loop_state :=
  name <~ lift (Py.subscript q "name") ;;
  log (LogRunning name) ;;;
  qstring <~ lift (Py.subscript q "string") ;;
  raw <~ run_query (net env) qstring num_results api_key days_back ;;
  job_results <~ lift (rfilter is_job_posting raw) ;;
  filtered <~ lift (filter_new_results job_results (seen_urls st)) ;;
  let '(new_results, seen) := filtered in
  let total := (total_new st + length new_results)%nat in
  seen' <~ lift (add_urls seen new_results) ;;
  by_query <~ lift (odict_set (results_by_query st) name new_results) ;;
  log (LogCounts (length raw) (length job_results) (length new_results)) ;;;
  (if Z.of_nat i <? Z.of_nat n - 1 then
     positive <~ lift (Py.gt_int delay 0) ;;
     if positive then time_sleep delay else ret tt
   else ret tt) ;;;
  ret {| seen_urls := seen'; results_by_query := by_query; total_new := total |}.

(** [for i, q in enumerate(queries)], from index [i] on. *)
Fixpoint query_loop (env : environment) (num_results delay days_back : json)
    (api_key : string) (n i : nat) (queries : list json) (st : loop_state) : M loop_state :=
  match queries with
  | [] => ret st
  | q :: rest =>
      st' <~ query_step env num_results delay days_back api_key n i q st ;;
      query_loop env num_results delay days_back api_key n (S i) rest st'
  end.

(** [q.get("enabled", True)] as a condition. *)
Definition enabled (q : json) : result bool :=
  e <- Py.get q "enabled" (JBool true) ;;
  Ok (Py.truthy e).

(** [[q for q in config.get("queries", []) if q.get("enabled", True)]] *)
Definition enabled_queries (config : json) : result (list json) :=
  qs <- Py.get config "queries" (JArr []) ;;
  all_queries <- Py.iter qs ;;
  rfilter enabled all_queries.

Definition dry_run_line (q : json) : M unit :=
  name <~ lift (Py.subscript q "name") ;;
  qstring <~ lift (Py.subscript q "string") ;;
  emit (Stdout (DryRunQuery name qstring)).

Definition main (env : environment) (a : args) : M unit :=
  config <~ try_except (lift (load_config env (a_config a)))
              (fun exc =>
                 match exc with
                 | FileNotFoundError =>
                     Some (log (LogConfigNotFound (a_config a)) ;;; sys_exit 0)
                 | _ => None
                 end) ;;
  settings <~ lift (Py.get config "settings" (JObj [])) ;;
  num_results <~ lift (Py.get settings "results_per_query" (JNum 10)) ;;
  delay <~ lift (Py.get settings "delay_between_queries_seconds" (JNum 2)) ;;
  days_back <~ lift (Py.get settings "days_back" (JNum 7)) ;;
  queries <~ lift (enabled_queries config) ;;
  match queries with
  | [] => log LogNoEnabled ;;; sys_exit 0
  | _ =>
      if a_dry_run a then
        emit (Stdout (DryRunHeader (length queries) days_back)) ;;;
        mfor queries dry_run_line ;;;
        sys_exit 0
      else if negb (nonempty (a_api_key a)) then
        log LogSetup ;;; sys_exit 0
      else
        seen <~ lift (read_job_history env (a_history a)) ;;
        st <~ query_loop env num_results delay days_back (a_api_key a)
                (length queries) 0 queries
                {| seen_urls := seen; results_by_query := []; total_new := 0 |} ;;
        let output_text := format_as_text_block (results_by_query st) (today env) in
        (match a_output a with
         | Some path =>
             if nonempty path then write_text env path output_text
             else emit (Stdout (Report output_text))
         | None => emit (Stdout (Report output_text))
         end) ;;;
        log (LogSummary (total_new st) (length queries)) ;;;
        sys_exit 0
  end.

(** Running the script from an empty trace. *)
Definition run (env : environment) (a : args) : result unit * trace := main env a [].

(** ** Vocabulary of the statements *)

(** A field as the data model has it: a string, or [None]. *)
Definition str_or_none (v : json) : bool :=
  match v with
  | JStr _ | JNull => true
  | _ => false
  end.

(** The item with its url and title lowercased (where they are strings). *)
Definition lower_value (v : json) : json :=
  match v with
  | JStr s => JStr (PyStr.lower s)
  | _ => v
  end.

Definition lowercased (item : pydict) : pydict :=
  map (fun kv =>
         if String.eqb (fst kv) "url" || String.eqb (fst kv) "title"
         then (fst kv, lower_value (snd kv))
         else kv) item.

(** What the [try] block of [run_query] comes to for an outcome of the post,
    and what [run_query] then returns: an [Exception] is caught. *)
Definition attempt (o : post_outcome) : result (list pydict) :=
  match o with
  | PostRaises e => Raise e
  | PostReturns r => parse_response r
  end.

Definition returned_by (o : post_outcome) : result (list pydict) :=
  match attempt o with
  | Ok items => Ok items
  | Raise e => if is_Exception e then Ok [] else Raise e
  end.

(** The three ways a search can fail. *)
Definition transport_error (o : post_outcome) : bool :=
  match o with
  | PostRaises e => is_Exception e
  | PostReturns _ => false
  end.

Definition error_status (o : post_outcome) : bool :=
  match o with
  | PostRaises _ => false
  | PostReturns r => (400 <=? status_code r) && (status_code r <? 600)
  end.

Definition non_2xx_status (o : post_outcome) : bool :=
  match o with
  | PostRaises _ => false
  | PostReturns r => negb ((200 <=? status_code r) && (status_code r <? 300))
  end.

(** A value [v[:200]] rejects. *)
Definition unsliceable (v : json) : bool :=
  match v with
  | JStr _ | JArr _ => false
  | _ => true
  end.

(** An element of [results] that is no object, or whose content cannot be
    cut to 200 characters. *)
Definition bad_element (r : json) : bool :=
  match r with
  | JObj f => unsliceable (Py.or_ (Py.dict_get f "content" (JStr "")) (JStr ""))
  | _ => true
  end.

(** A document that is no object, whose [results] is no array, or one of
    whose results is bad. *)
Definition malformed_doc (doc : json) : bool :=
  match doc with
  | JObj m =>
      match Py.dict_get m "results" (JArr []) with
      | JArr l => existsb bad_element l
      | _ => true
      end
  | _ => true
  end.

(** A body that is not JSON, or a malformed document. *)
Definition malformed_body (o : post_outcome) : bool :=
  match o with
  | PostRaises _ => false
  | PostReturns r =>
      match body r with
      | None => true
      | Some doc => malformed_doc doc
      end
  end.

(** An item whose url hashes: a string, [None], a number or a boolean. *)
Definition hashable_url (item : pydict) : bool :=
  match Py.hash (Py.dict_get item "url" JNull) with
  | Ok _ => true
  | Raise _ => false
  end.

(** The url of [item] hashes, and its key is not a member of [seen]. *)
Definition url_outside (seen : gset Py.hkey) (item : pydict) : Prop :=
  exists k, Py.hash (Py.dict_get item "url" JNull) = Ok k /\ k ∉ seen.

(** Every query of [results_by_query] has an empty list. *)
Definition all_empty (results_by_query : odict) : bool :=
  forallb (fun e => match snd e with [] => true | _ => false end) results_by_query.

(** *** Well-formed inputs *)

Definition is_obj (v : json) : bool :=
  match v with
  | JObj _ => true
  | _ => false
  end.

Definition is_int (v : json) : bool :=
  match v with
  | JNum _ => true
  | _ => false
  end.

(** The [queries] of a configuration document, and those that are enabled. *)
Definition config_queries (config : json) : list json :=
  match Py.get config "queries" (JArr []) with
  | Ok (JArr qs) => qs
  | _ => []
  end.

Definition is_enabled (q : json) : bool :=
  match q with
  | JObj f => Py.truthy (Py.dict_get f "enabled" (JBool true))
  | _ => false
  end.

Definition config_enabled (config : json) : list json :=
  List.filter is_enabled (config_queries config).

(** The shape of the configuration file: an object, whose [settings] (if
    any) is an object and whose [queries] (if any) is an array of objects. *)
Definition config_shape (config : json) : bool :=
  match config with
  | JObj m =>
      is_obj (Py.dict_get m "settings" (JObj []))
      && match Py.dict_get m "queries" (JArr []) with
         | JArr qs => forallb is_obj qs
         | _ => false
         end
  | _ => false
  end.

(** The settings a run reads, as the data model types them: integers. *)
Definition settings_ok (settings : json) : bool :=
  match settings with
  | JObj f =>
      is_int (Py.dict_get f "results_per_query" (JNum 10))
      && is_int (Py.dict_get f "delay_between_queries_seconds" (JNum 2))
  | _ => false
  end.

(** A query has a [name], which is a string, and a [string]. *)
Definition query_ok (q : json) : bool :=
  match q with
  | JObj f =>
      match Py.lookup "name" f, Py.lookup "string" f with
      | Some (JStr _), Some _ => true
      | _, _ => false
      end
  | _ => false
  end.

(** A configuration a run can use: of the right shape, with integer
    settings, and whose enabled queries are well formed. *)
Definition wf_config (config : json) : bool :=
  match config with
  | JObj m =>
      settings_ok (Py.dict_get m "settings" (JObj []))
      && match Py.dict_get m "queries" (JArr []) with
         | JArr qs => forallb (fun q => is_obj q && (negb (is_enabled q) || query_ok q)) qs
         | _ => false
         end
  | _ => false
  end.

Definition query_name (q : json) : json :=
  match q with
  | JObj f => Py.dict_get f "name" JNull
  | _ => JNull
  end.

(** A result of the API as its schema has it: an object whose [url],
    [title] and [content], when there, are strings or null. *)
Definition result_ok (r : json) : bool :=
  match r with
  | JObj f =>
      str_or_none (Py.dict_get f "url" JNull)
      && str_or_none (Py.dict_get f "title" JNull)
      && str_or_none (Py.dict_get f "content" JNull)
  | _ => false
  end.

Definition doc_ok (doc : json) : bool :=
  match doc with
  | JObj m =>
      match Py.dict_get m "results" (JArr []) with
      | JArr l => forallb result_ok l
      | _ => false
      end
  | _ => false
  end.

Definition conformant (o : post_outcome) : bool :=
  match o with
  | PostReturns r =>
      match body r with
      | Some doc => doc_ok doc
      | None => false
      end
  | PostRaises _ => false
  end.

(** What a post can come to: one of the failures, or a response that
    conforms to the schema. *)
Definition outcome_ok (o : post_outcome) : bool :=
  transport_error o || error_status o || malformed_body o || conformant o.

(** [config.get("settings", {}).get(k, dflt)] for a configuration of the
    right shape. *)
Definition config_setting (config : json) (k : string) (dflt : json) : json :=
  match Py.get config "settings" (JObj []) with
  | Ok (JObj f) => Py.dict_get f k dflt
  | _ => dflt
  end.


(** The history file, if there is one, can be read. *)
Definition history_ok (env : environment) (a : args) : bool :=
  match text_files env (a_history a), read_error env (a_history a) with
  | Some _, Some _ => false
  | _, _ => true
  end.




(** The classifier as a test: the answer, [false] if it raises. *)
Definition is_job (item : pydict) : bool :=
  match is_job_posting item with
  | Ok b => b
  | Raise _ => false
  end.





(** An item the rest of the pipeline takes: its url and its title are
    strings or [None]. *)
Definition item_ok (item : pydict) : bool :=
  str_or_none (Py.dict_get item "url" JNull)
  && str_or_none (Py.dict_get item "title" JNull).

(** The key of an item's url in [seen_urls]. *)
Definition url_key (item : pydict) : Py.hkey :=
  match Py.hash (Py.dict_get item "url" JNull) with
  | Ok k => k
  | Raise _ => Py.HNone
  end.

(** The job postings of [raw] whose url is not in [seen]: [new_results]. *)
Definition fresh_jobs (seen : gset Py.hkey) (raw : list pydict) : list pydict :=
  List.filter (fun r => negb (bool_decide (url_key r ∈ seen))) (List.filter is_job raw).

Definition keys_of (items : list pydict) : gset Py.hkey :=
  list_to_set (map url_key items).



(** The state in which [main] enters the loop. *)
Definition initial_state (env : environment) (a : args) : loop_state :=
  {| seen_urls := load_job_history env (a_history a);
     results_by_query := [];
     total_new := 0 |}.






Definition count_lines (line : string) (lines : list string) : nat :=
  length (List.filter (String.eqb line) lines).

(** The lines of a text: [text.split("\n")]. *)
Fixpoint text_lines (text : string) : list string :=
  match text with
  | EmptyString => [""]
  | String c rest =>
      if Ascii.eqb c (ascii_of_nat 10) then "" :: text_lines rest
      else match text_lines rest with
           | line :: lines => String c line :: lines
           | [] => [String c ""]
           end
  end.

(** A string that is one line: it has no line boundary, neither the
    newline nor another of those [str.splitlines()] knows. *)
Fixpoint one_line (s : string) : bool :=
  match s with
  | EmptyString => true
  | String c rest => negb (PyStr.is_linebreak c) && one_line rest
  end.

(** A result whose title, url and snippet are printed on one line each. *)
Definition single_line_item (item : pydict) : bool :=
  one_line (Py.str (Py.dict_get item "title" (JStr "")))
  && one_line (Py.str (Py.dict_get item "url" (JStr "")))
  && one_line (Py.str (Py.dict_get item "description" (JStr ""))).

(** A query of [results_by_query] whose name and results are printed on one
    line each. *)
Definition single_line_entry (entry : json * list pydict) : bool :=
  one_line (Py.str (fst entry)) && forallb single_line_item (snd entry).



(** *** A configuration and two runs *)

Definition example_config : json :=
  JObj [ ("settings", JObj [ ("results_per_query", JNum 25);
                             ("delay_between_queries_seconds", JNum 1);
                             ("days_back", JNum 7) ]);
         ("queries",
          JArr [ JObj [ ("name", JStr "greenhouse pm");
                        ("string", JStr "site:greenhouse.io product manager");
                        ("enabled", JBool true) ];
                 JObj [ ("name", JStr "lever pm");
                        ("string", JStr "site:lever.co product manager") ];
                 JObj [ ("name", JStr "workday pm");
                        ("string", JStr "site:myworkdayjobs.com product manager");
                        ("enabled", JBool false) ] ]) ].

Definition example_result (url title : string) : json :=
  JObj [ ("url", JStr url); ("title", JStr title); ("content", JStr "We are hiring.") ].

Definition example_response (results : list json) : post_outcome :=
  PostReturns {| status_code := 200; body := Some (JObj [ ("results", JArr results) ]) |}.

Definition shared_url : string := "https://boards.greenhouse.io/acme/jobs/1".

(** Both searches return the shared url, each once. *)
Definition example_network : network :=
  fun k =>
    match k with
    | 0%nat => example_response [ example_result shared_url "Product Manager" ]
    | 1%nat => example_response [ example_result "https://jobs.lever.co/acme/7" "Director";
                                  example_result shared_url "Product Manager, Acme" ]
    | _ => PostRaises RequestException
    end.


(** Every search fails: no connection, then a rejected key. *)
Definition failing_network : network :=
  fun k =>
    match k with
    | 0%nat => PostRaises RequestException
    | _ => PostReturns {| status_code := 401; body := None |}
    end.

Definition example_env (nw : network) : environment :=
  {| net := nw;
     json_files := fun _ => JSONFile example_config;
     text_files := fun _ => Some ("https://jobs.lever.co/old/3" +:+ PyStr.nl);
     today := "2024-05-01";
     read_error := fun _ => None;
     write_error := fun _ => None |}.

Definition example_args (api_key : string) : args :=
  {| a_config := "boolean-search-config.json";
     a_history := ".job_history.txt";
     a_output := None;
     a_api_key := api_key;
     a_dry_run := false |}.




(** *** Vocabulary of the further properties *)

Definition is_str (v : json) : bool :=
  match v with
  | JStr _ => true
  | _ => false
  end.

(** A value on which [(v or "").lower()] fails: truthy, and no string. *)
Definition not_lowerable (v : json) : bool := Py.truthy v && negb (is_str v).

(** A value that cannot be a member of a set: a list or a dict. *)
Definition unhashable (v : json) : bool :=
  match v with
  | JArr _ | JObj _ => true
  | _ => false
  end.

(** A result dict as [run_query] builds it: the three keys in order, with a
    description of at most 200 characters (or elements, for a list). *)
Definition built_item (item : pydict) : Prop :=
  exists url title description,
    item = [ ("url", url); ("title", title); ("description", description) ] /\
    match description with
    | JStr s => (String.length s <= 200)%nat
    | JArr l => (length l <= 200)%nat
    | _ => False
    end.

(** A query of [results_by_query] that has results. *)
Definition has_results (entry : json * list pydict) : bool :=
  match snd entry with
  | [] => false
  | _ => true
  end.

(** A history file with one url on each line, each line ended by a newline. *)
Fixpoint lines_text (lines : list string) : string :=
  match lines with
  | [] => ""
  | line :: rest => line +:+ PyStr.nl +:+ lines_text rest
  end.

Fixpoint no_space (s : string) : bool :=
  match s with
  | EmptyString => true
  | String c s' => negb (PyStr.is_space c) && no_space s'
  end.

(** A url as a history file holds it: not empty, and free of whitespace. *)
Definition clean_url (s : string) : bool := nonempty s && no_space s.

(** The pauses, the lines printed and the files written in a trace. *)
Fixpoint sleeps (tr : trace) : list json :=
  match tr with
  | [] => []
  | Sleep d :: tr' => d :: sleeps tr'
  | _ :: tr' => sleeps tr'
  end.

Fixpoint stdouts (tr : trace) : list out_line :=
  match tr with
  | [] => []
  | Stdout o :: tr' => o :: stdouts tr'
  | _ :: tr' => stdouts tr'
  end.

Fixpoint writes (tr : trace) : list (string * string) :=
  match tr with
  | [] => []
  | WriteText path text :: tr' => (path, text) :: writes tr'
  | _ :: tr' => writes tr'
  end.

(** The [string] of a query, and the request [main] posts for it. *)
Definition query_string (q : json) : json :=
  match q with
  | JObj f => Py.dict_get f "string" JNull
  | _ => JNull
  end.

Definition query_payload (num_results : Z) (api_key : string) (days_back : json) (q : json)
  : payload :=
  {| p_api_key := api_key;
     p_query := query_string q;
     p_search_depth := "basic";
     p_max_results := JNum (Z.min num_results 20);
     p_days := days_back |}.





(** [r.get(k, "")] for a result [r] of the API. *)
Definition field_or_empty (k : string) (r : json) : json :=
  match r with
  | JObj f => Py.dict_get f k (JStr "")
  | _ => JStr ""
  end.

(** * Properties *)


(** ** Strings *)

Section StringFacts.

Lemma lower_char_idem (c : ascii) : PyStr.lower_char (PyStr.lower_char c) = PyStr.lower_char c.
Proof. destruct c as [[] [] [] [] [] [] [] []]; vm_compute; reflexivity. Qed.

Lemma lower_idem (s : string) : PyStr.lower (PyStr.lower s) = PyStr.lower s.
Proof.
  induction s as [|c s IH]; simpl; [reflexivity|].
  rewrite lower_char_idem, IH. reflexivity.
Qed.

Lemma startswith_lower (p s : string) :
  PyStr.startswith p s = true ->
  PyStr.startswith (PyStr.lower p) (PyStr.lower s) = true.
Proof.
  revert s. induction p as [|a p IH]; intros [|b s]; simpl; try done.
  intros H. apply andb_prop in H as [Hab Hps].
  apply Ascii.eqb_eq in Hab. subst b.
  rewrite Ascii.eqb_refl. simpl. auto.
Qed.

Lemma contains_lower (p s : string) :
  PyStr.contains p s = true ->
  PyStr.contains (PyStr.lower p) (PyStr.lower s) = true.
Proof.
  induction s as [|b s IH]; simpl.
  - rewrite !orb_false_r. intros H. apply startswith_lower in H. exact H.
  - intros H. apply orb_prop in H as [H|H].
    + apply (startswith_lower p (String b s)) in H. simpl in H. rewrite H. reflexivity.
    + rewrite (IH H). apply orb_true_r.
Qed.

Lemma append_assoc (a b c : string) : (a +:+ b) +:+ c = a +:+ b +:+ c.
Proof.
  induction a as [|x a IH]; [reflexivity|].
  change (String x ((a +:+ b) +:+ c) = String x (a +:+ b +:+ c)).
  rewrite IH. reflexivity.
Qed.

End StringFacts.

(** ** The classifier *)

Section Classifier.

Lemma lower_or_str (s : string) :
  Py.lower (Py.or_ (JStr s) (JStr "")) = Ok (PyStr.lower s).
Proof. unfold Py.or_. simpl. destruct s; reflexivity. Qed.

Lemma lower_or_field (v : json) :
  str_or_none v = true -> exists t, Py.lower (Py.or_ v (JStr "")) = Ok t.
Proof.
  destruct v; try discriminate; intros _.
  - exists "". reflexivity.
  - eexists. apply lower_or_str.
Qed.

(** The decision once both strings are lowercased. *)
Lemma is_job_posting_eq (item : pydict) (url title : string) :
  Py.lower (Py.or_ (Py.dict_get item "url" JNull) (JStr "")) = Ok url ->
  Py.lower (Py.or_ (Py.dict_get item "title" JNull) (JStr "")) = Ok title ->
  is_job_posting item =
    Ok (existsb (fun p => PyStr.contains p url) ATS_JOB_PATTERNS
        || negb (existsb (fun s => PyStr.contains s url) bad_signals)
           && existsb (fun sig => PyStr.contains sig title) job_title_signals).
Proof.
  intros Hu Ht. unfold is_job_posting. rewrite Hu, Ht. cbn [rbind].
  destruct (existsb _ ATS_JOB_PATTERNS); [reflexivity|].
  destruct (existsb _ bad_signals); reflexivity.
Qed.

Lemma lookup_lowercased (k : string) (item : pydict) :
  k = "url" \/ k = "title" ->
  Py.lookup k (lowercased item) = lower_value <$> Py.lookup k item.
Proof.
  intros Hk. induction item as [|[k' v] item IH]; [reflexivity|].
  cbn [lowercased map Py.lookup fst snd]. fold (lowercased item).
  destruct (String.eqb k k') eqn:E.
  - apply String.eqb_eq in E. subst k'.
    destruct Hk as [-> | ->]; reflexivity.
  - destruct (String.eqb k' "url" || String.eqb k' "title");
      cbn [Py.lookup]; rewrite E; exact IH.
Qed.

Lemma lower_or_lower_value (v : json) :
  Py.lower (Py.or_ (lower_value v) (JStr "")) = Py.lower (Py.or_ v (JStr "")).
Proof.
  destruct v; try reflexivity.
  cbn [lower_value]. rewrite !lower_or_str, lower_idem. reflexivity.
Qed.

Lemma dict_get_lowercased (k : string) (item : pydict) :
  k = "url" \/ k = "title" ->
  Py.dict_get (lowercased item) k JNull = lower_value (Py.dict_get item k JNull).
Proof.
  intros Hk. unfold Py.dict_get. rewrite (lookup_lowercased k item Hk).
  destruct (Py.lookup k item); reflexivity.
Qed.

Lemma is_job_posting_lowercased_eq (item : pydict) :
  is_job_posting (lowercased item) = is_job_posting item.
Proof.
  unfold is_job_posting.
  rewrite (dict_get_lowercased "url"), (dict_get_lowercased "title") by auto.
  rewrite !lower_or_lower_value. reflexivity.
Qed.

(** The first check: an ATS pattern in the lowercased url settles the answer. *)
Lemma is_job_posting_ats (item : pydict) (u : string) :
  Py.lookup "url" item = Some (JStr u) ->
  existsb (fun p => PyStr.contains p (PyStr.lower u)) ATS_JOB_PATTERNS = true ->
  str_or_none (Py.dict_get item "title" JNull) = true ->
  is_job_posting item = Ok true.
Proof.
  intros Hurl Hats Htitle.
  destruct (lower_or_field _ Htitle) as [t Ht].
  rewrite (is_job_posting_eq item (PyStr.lower u) t); [|
    unfold Py.dict_get; rewrite Hurl; apply lower_or_str | exact Ht].
  rewrite Hats. reflexivity.
Qed.

(** C3: an item whose url contains [greenhouse.io] is a job posting, whatever
    its title (a string, or none) and its other fields are. *)
Theorem is_job_posting_greenhouse (item : pydict) (u : string) :
  Py.lookup "url" item = Some (JStr u) ->
  PyStr.contains "greenhouse.io" u = true ->
  str_or_none (Py.dict_get item "title" JNull) = true ->
  is_job_posting item = Ok true.
Proof.
  intros Hurl Hin Htitle. apply (is_job_posting_ats item u Hurl); [|exact Htitle].
  apply contains_lower in Hin. change (PyStr.lower "greenhouse.io") with "greenhouse.io" in Hin.
  cbn [ATS_JOB_PATTERNS existsb]. rewrite Hin. reflexivity.
Qed.

Lemma is_job_posting_greenhouse_witness :
  is_job_posting
    [ ("url", JStr "https://boards.greenhouse.io/acme/blog/2024");
      ("title", JStr "Our Company Blog") ] = Ok true.
Proof.
  apply (is_job_posting_greenhouse _ "https://boards.greenhouse.io/acme/blog/2024");
    reflexivity.
Defined.

(** C4, as the classifier does it: an item whose url contains [/blog/] and,
    once lowercased, none of the ATS patterns, is not a job posting, whatever
    its title (a string, or none) is. *)
Theorem is_job_posting_blog (item : pydict) (u : string) :
  Py.lookup "url" item = Some (JStr u) ->
  PyStr.contains "/blog/" u = true ->
  existsb (fun p => PyStr.contains p (PyStr.lower u)) ATS_JOB_PATTERNS = false ->
  str_or_none (Py.dict_get item "title" JNull) = true ->
  is_job_posting item = Ok false.
Proof.
  intros Hurl Hin Hats Htitle.
  destruct (lower_or_field _ Htitle) as [t Ht].
  rewrite (is_job_posting_eq item (PyStr.lower u) t); [|
    unfold Py.dict_get; rewrite Hurl; apply lower_or_str | exact Ht].
  rewrite Hats. apply contains_lower in Hin.
  change (PyStr.lower "/blog/") with "/blog/" in Hin.
  cbn [bad_signals existsb]. rewrite Hin. reflexivity.
Qed.

Lemma is_job_posting_blog_witness :
  is_job_posting
    [ ("url", JStr "https://example.com/Blog/blog/hiring");
      ("title", JStr "Senior Engineer") ] = Ok false.
Proof.
  apply (is_job_posting_blog _ "https://example.com/Blog/blog/hiring"); reflexivity.
Defined.

(** C4 as stated fails: this url contains [/blog/] and none of the ATS
    patterns, yet its lowercased form contains [/jobs/]. *)
Lemma is_job_posting_blog_counterexample :
  let u := "https://example.com/blog/Jobs/1" in
  let item := [ ("url", JStr u); ("title", JStr "Weekly update") ] in
  PyStr.contains "/blog/" u = true /\
  existsb (fun p => PyStr.contains p u) ATS_JOB_PATTERNS = false /\
  is_job_posting item = Ok true.
Proof. repeat split. Qed.

(** C10: lowercasing the url and the title of an item first does not change
    the classifier's answer. *)
Theorem is_job_posting_lowercased (item : pydict) :
  is_job_posting (lowercased item) = is_job_posting item.
Proof. exact (is_job_posting_lowercased_eq item). Qed.

(** Hence two items that differ by the case of url and title only are
    classified alike. *)
Corollary is_job_posting_case_insensitive (item item' : pydict) :
  lowercased item = lowercased item' ->
  is_job_posting item = is_job_posting item'.
Proof.
  intros H. rewrite <- (is_job_posting_lowercased_eq item), H.
  apply is_job_posting_lowercased_eq.
Qed.

End Classifier.

(** ** The deduplicator *)

Section Deduplicator.

Lemma rfilter_ok {A} (f : A -> result bool) (l : list A) :
  Forall (fun x => exists b, f x = Ok b) l ->
  exists out, rfilter f l = Ok out.
Proof.
  induction 1 as [|x l [b Hx] _ [out IH]]; simpl; [eauto|].
  rewrite Hx, IH. simpl. eauto.
Qed.

Lemma rfilter_sound {A} (f : A -> result bool) (l out : list A) :
  rfilter f l = Ok out ->
  Forall (fun x => f x = Ok true) out /\ sublist out l.
Proof.
  revert out. induction l as [|x l IH]; simpl; intros out H.
  - injection H as <-. split; constructor.
  - destruct (f x) as [b|] eqn:Hx; [|discriminate]. simpl in H.
    destruct (rfilter f l) as [ys|]; [|discriminate]. simpl in H.
    destruct (IH ys eq_refl) as [Hall Hsub].
    injection H as <-. destruct b.
    + split; [constructor; assumption | by apply sublist_skip].
    + split; [assumption | by apply sublist_cons].
Qed.

Lemma url_not_in_true (seen : gset Py.hkey) (r : pydict) :
  url_not_in seen r = Ok true -> url_outside seen r.
Proof.
  unfold url_not_in, url_outside.
  destruct (Py.hash _) as [k|]; [|discriminate]. simpl.
  intros H. exists k. split; [reflexivity|].
  injection H as H. apply negb_true_iff, bool_decide_eq_false in H. exact H.
Qed.

(** C5: on a list of results whose urls hash, [filter_new_results] returns;
    the set is as it was; each result kept has its url outside the set; and
    the results kept are a sublist of those given. *)
Theorem filter_new_results_disjoint (results : list pydict) (seen : gset Py.hkey) :
  forallb hashable_url results = true ->
  exists new,
    filter_new_results results seen = Ok (new, seen) /\
    Forall (url_outside seen) new /\
    sublist new results.
Proof.
  intros Hh. unfold filter_new_results.
  destruct (rfilter_ok (url_not_in seen) results) as [new Hnew].
  { apply Forall_forall. intros r Hr.
    rewrite forallb_forall in Hh. apply list_elem_of_In, Hh in Hr.
    unfold hashable_url in Hr. unfold url_not_in.
    destruct (Py.hash _); [eauto | discriminate]. }
  exists new. rewrite Hnew. split; [reflexivity|].
  apply rfilter_sound in Hnew as [Hall Hsub]. split; [|exact Hsub].
  eapply Forall_impl; [exact Hall|]. intros r. apply url_not_in_true.
Qed.

Lemma filter_new_results_disjoint_witness :
  let old := [ ("url", JStr "https://a.example/jobs/1"); ("title", JStr "Engineer") ] in
  let fresh := [ ("url", JStr "https://a.example/jobs/2"); ("title", JStr "Analyst") ] in
  let seen : gset Py.hkey := {[ Py.HStr "https://a.example/jobs/1" ]} in
  exists new,
    filter_new_results [old; fresh] seen = Ok (new, seen) /\
    Forall (url_outside seen) new /\
    sublist new [old; fresh].
Proof.
  intros old fresh seen.
  apply (filter_new_results_disjoint [old; fresh] seen). reflexivity.
Defined.

End Deduplicator.

(** ** The report *)

Section Formatter.

Lemma all_empty_total (d : odict) :
  all_empty d = true -> list_sum (map (fun e => length (snd e)) d) = 0%nat.
Proof.
  induction d as [|[k v] d IH]; simpl; [reflexivity|].
  destruct v; [|discriminate]. exact IH.
Qed.

(** C2, as the formatter does it: with every result list empty the text is
    the header line with the run date, the source line, an empty line and
    the no-results sentence; there are no query sections. *)
Theorem format_as_text_block_all_empty (results_by_query : odict) (run_date : string) :
  all_empty results_by_query = true ->
  format_as_text_block results_by_query run_date =
    "=== BOOLEAN SEARCH RESULTS - " +:+ run_date +:+ " ===" +:+ PyStr.nl +:+
    "Source: Direct ATS search via Tavily (Greenhouse, Lever, Workday, ICIMS)" +:+ PyStr.nl +:+
    "" +:+ PyStr.nl +:+
    "No new job postings found via Boolean search today.".
Proof.
  intros H. unfold format_as_text_block, format_lines.
  rewrite (all_empty_total _ H). cbn [Nat.eqb header_lines app PyStr.join].
  rewrite !append_assoc. reflexivity.
Qed.

Lemma format_as_text_block_all_empty_witness :
  format_as_text_block [ (JStr "pm roles", []); (JStr "data roles", []) ] "2024-05-01" =
    "=== BOOLEAN SEARCH RESULTS - " +:+ "2024-05-01" +:+ " ===" +:+ PyStr.nl +:+
    "Source: Direct ATS search via Tavily (Greenhouse, Lever, Workday, ICIMS)" +:+ PyStr.nl +:+
    "" +:+ PyStr.nl +:+
    "No new job postings found via Boolean search today.".
Proof.
  apply (format_as_text_block_all_empty
           [ (JStr "pm roles", []); (JStr "data roles", []) ] "2024-05-01").
  reflexivity.
Defined.

(** C2 as stated fails: the text is more than the sentence. *)
Lemma format_as_text_block_all_empty_counterexample :
  all_empty [ (JStr "pm roles", []) ] = true /\
  format_as_text_block [ (JStr "pm roles", []) ] "2024-05-01" <> no_results_line.
Proof. split; [reflexivity | discriminate]. Qed.

End Formatter.

(** ** The search client *)

Section SearchClient.

Lemma posts_app (tr tr' : trace) : posts (tr ++ tr') = posts tr ++ posts tr'.
Proof.
  induction tr as [|e tr IH]; [reflexivity|].
  destruct e; simpl; rewrite IH; reflexivity.
Qed.

Lemma request_payload_int (q : json) (n : Z) (key : string) (d : json) :
  request_payload q (JNum n) key d =
    Ok {| p_api_key := key; p_query := q; p_search_depth := "basic";
          p_max_results := JNum (Z.min n 20); p_days := d |}.
Proof.
  unfold request_payload. simpl. do 3 f_equal.
  destruct (Z.ltb_spec 20 n); lia.
Qed.

Lemma run_query_try_eq (nw : network) (p : payload) (tr : trace) :
  run_query_try nw p tr = (attempt (nw (length (posts tr))), tr ++ [Post p]).
Proof.
  unfold run_query_try, bind, requests_post, attempt, lift.
  destruct (nw _); reflexivity.
Qed.

(** An [Exception] in the [try] block is answered by one warning and []. *)
Lemma run_query_except_Exception (e : exn) :
  is_Exception e = true ->
  exists l, forall tr,
    match run_query_except e with
    | Some h => h tr = (Ok [], tr ++ [Stderr l])
    | None => False
    end.
Proof.
  destruct e as [resp| | | | | | | | |c]; try discriminate; intros _;
    try (eexists; intros tr; reflexivity).
  cbn [run_query_except].
  destruct resp as [[st b]|]; cbn [fmap option_fmap option_map status_code].
  - destruct (decide (st = 401)) as [->|H1]; [eexists; intros tr; reflexivity|].
    destruct (decide (st = 429)) as [->|H2]; [eexists; intros tr; reflexivity|].
    exists (LogHTTP (Some st) (http_error_msg (HTTPError (Some (mkResponse st b)))
                                 (Some (mkResponse st b)))).
    intros tr. destruct st as [|p|p]; try reflexivity.
    repeat (destruct p as [p|p|]; try reflexivity); congruence.
  - eexists; intros tr; reflexivity.
Qed.

Lemma run_query_except_other (e : exn) :
  is_Exception e = false -> run_query_except e = None.
Proof. destruct e; try discriminate; reflexivity. Qed.

(** What [run_query] returns, the one request it posts and the warning it
    may print. *)
Lemma run_query_eq (nw : network) (q : json) (n : Z) (key : string) (d : json) (tr : trace) :
  exists logs,
    run_query nw q (JNum n) key d tr =
      (returned_by (nw (length (posts tr))),
       tr ++ Post {| p_api_key := key; p_query := q; p_search_depth := "basic";
                     p_max_results := JNum (Z.min n 20); p_days := d |} :: logs) /\
    (logs = [] \/ exists l, logs = [Stderr l]).
Proof.
  unfold run_query. rewrite request_payload_int.
  unfold bind at 1, lift at 1. unfold try_except. rewrite run_query_try_eq.
  unfold returned_by. destruct (attempt _) as [items|e].
  - exists []. split; [reflexivity | left; reflexivity].
  - destruct (is_Exception e) eqn:He.
    + destruct (run_query_except_Exception e He) as [l Hl].
      exists [Stderr l]. split; [|right; eauto].
      specialize (Hl (tr ++ [Post {| p_api_key := key; p_query := q; p_search_depth := "basic";
                     p_max_results := JNum (Z.min n 20); p_days := d |}])).
      destruct (run_query_except e); [|contradiction].
      rewrite Hl, <- app_assoc. reflexivity.
    + rewrite (run_query_except_other e He). exists [].
      split; [reflexivity | left; reflexivity].
Qed.

Lemma rmap_Exception {A B} (f : A -> result B) (l : list A) (e : exn) :
  (forall x e', f x = Raise e' -> is_Exception e' = true) ->
  rmap f l = Raise e -> is_Exception e = true.
Proof.
  intros Hf. induction l as [|x l IH]; simpl; [discriminate|].
  destruct (f x) as [y|e'] eqn:Hx; simpl.
  - destruct (rmap f l); simpl; [discriminate|].
    intros H. injection H as <-. apply IH. reflexivity.
  - intros H. injection H as <-. eapply Hf, Hx.
Qed.

Lemma result_dict_Exception (r : json) (e : exn) :
  result_dict r = Raise e -> is_Exception e = true.
Proof.
  unfold result_dict. destruct r; simpl; try (intros H; injection H as <-; reflexivity).
  destruct (Py.slice_to _ _) as [v|e'] eqn:Hs; simpl; [discriminate|].
  intros H. injection H as <-.
  destruct (Py.or_ _ _); simpl in Hs; try discriminate; injection Hs as <-; reflexivity.
Qed.

Lemma parse_response_Exception (r : response) (e : exn) :
  parse_response r = Raise e -> is_Exception e = true.
Proof.
  unfold parse_response, raise_for_status, response_json.
  destruct (_ && _); simpl; [intros H; injection H as <-; reflexivity|].
  destruct (body r) as [doc|]; simpl; [|intros H; injection H as <-; reflexivity].
  destruct doc; simpl; try (intros H; injection H as <-; reflexivity).
  destruct (Py.iter _) as [rs|e'] eqn:Hi; simpl.
  - apply rmap_Exception. apply result_dict_Exception.
  - intros H. injection H as <-.
    destruct (Py.dict_get _ _ _); simpl in Hi; try discriminate; injection Hi as <-; reflexivity.
Qed.

Lemma rmap_bad_element (l : list json) :
  existsb bad_element l = true -> exists e, rmap result_dict l = Raise e.
Proof.
  induction l as [|x l IH]; simpl; [discriminate|].
  intros H. destruct (result_dict x) as [y|e] eqn:Hx; simpl; [|eauto].
  destruct (bad_element x) eqn:Hb.
  - exfalso. unfold result_dict, bad_element in *. destruct x; simpl in Hx; try discriminate.
    destruct (Py.or_ _ _); simpl in Hx; discriminate.
  - destruct (IH H) as [e He]. rewrite He. simpl. eauto.
Qed.

Lemma rmap_not_objects (l : list json) (items : list pydict) :
  Forall (fun r => match r with JStr _ => True | _ => False end) l ->
  rmap result_dict l = Ok items -> items = [].
Proof.
  destruct 1 as [|r l Hr _]; simpl.
  - congruence.
  - destruct r; try contradiction. discriminate.
Qed.

Lemma chars_strings (s : string) :
  Forall (fun r => match r with JStr _ => True | _ => False end) (Py.chars s).
Proof. induction s; simpl; constructor; auto. Qed.

Lemma keys_strings (m : pydict) :
  Forall (fun r => match r with JStr _ => True | _ => False end)
    (map (fun kv => JStr (fst kv)) m).
Proof. induction m; simpl; constructor; auto. Qed.

Lemma parse_response_malformed (r : response) (items : list pydict) :
  malformed_body (PostReturns r) = true ->
  parse_response r = Ok items -> items = [].
Proof.
  unfold malformed_body, parse_response, raise_for_status, response_json.
  destruct (_ && _); simpl; [discriminate|].
  destruct (body r) as [doc|]; simpl; [|discriminate].
  destruct doc; simpl; try discriminate.
  destruct (Py.dict_get _ _ _) as [| | |s|l|m'] eqn:Hres; simpl; try discriminate.
  - intros _. apply rmap_not_objects, chars_strings.
  - intros Hbad. destruct (rmap_bad_element l Hbad) as [e He]. rewrite He. discriminate.
  - intros _. apply rmap_not_objects, keys_strings.
Qed.

(** Each kind of failure makes [run_query] return []. *)
Lemma returned_by_failure (o : post_outcome) :
  transport_error o || error_status o || malformed_body o = true ->
  returned_by o = Ok [].
Proof.
  unfold returned_by. destruct o as [e|r]; cbn [attempt].
  - simpl. rewrite !orb_false_r. intros ->. reflexivity.
  - cbn [transport_error orb]. intros H.
    destruct (parse_response r) as [items|e] eqn:Hp.
    + apply orb_prop in H as [H|H].
      * exfalso. unfold parse_response, raise_for_status in Hp.
        simpl in H. rewrite H in Hp. discriminate.
      * rewrite (parse_response_malformed r items H Hp). reflexivity.
    + rewrite (parse_response_Exception r e Hp). reflexivity.
Qed.

(** Whatever the outcome of the post, short of a [BaseException] from the
    library, [run_query] returns a list. *)
Lemma returned_by_ok (o : post_outcome) :
  (forall e, o = PostRaises e -> is_Exception e = true) ->
  exists items, returned_by o = Ok items.
Proof.
  intros H. unfold returned_by. destruct (attempt o) as [items|e] eqn:Ha; [eauto|].
  assert (is_Exception e = true) as ->; [|eauto].
  destruct o as [e'|r]; simpl in Ha.
  - injection Ha as ->. apply H. reflexivity.
  - eapply parse_response_Exception, Ha.
Qed.

(** C1, as the client does it: when the post raises an [Exception], or the
    status is 4xx or 5xx, or the body is malformed (not JSON, not an object,
    [results] not an array, an element that is no object or whose content
    cannot be sliced), [run_query] returns the empty list, having posted one
    request.  It raises nothing. *)
Theorem run_query_failure_empty (nw : network)
    (query_string : string) (num_results : Z) (api_key : string) (days_back : Z)
    (tr : trace) :
  let o := nw (length (posts tr)) in
  transport_error o || error_status o || malformed_body o = true ->
  fst (run_query nw (JStr query_string) (JNum num_results) api_key (JNum days_back) tr)
    = Ok [].
Proof.
  intros o H.
  destruct (run_query_eq nw (JStr query_string) num_results api_key (JNum days_back) tr)
    as (logs & -> & _).
  cbn [fst]. apply returned_by_failure, H.
Qed.

Lemma run_query_failure_empty_witness :
  fst (run_query (fun _ => PostReturns (mkResponse 503 (Some (JObj []))))
         (JStr "site:greenhouse.io product manager") (JNum 10) "tvly-key" (JNum 7) [])
    = Ok [].
Proof.
  apply (run_query_failure_empty (fun _ => PostReturns (mkResponse 503 (Some (JObj []))))
           "site:greenhouse.io product manager" 10 "tvly-key" 7 []).
  reflexivity.
Defined.

(** C1 as stated fails for a status that is neither 2xx nor an error for
    [raise_for_status]: the results of a 300 response are returned. *)
Lemma run_query_failure_empty_counterexample :
  let doc := JObj [ ("results", JArr [ JObj [ ("url", JStr "https://jobs.lever.co/acme/1");
                                               ("title", JStr "Engineer");
                                               ("content", JStr "Apply now") ] ]) ] in
  let o := PostReturns (mkResponse 300 (Some doc)) in
  non_2xx_status o = true /\
  fst (run_query (fun _ => o) (JStr "engineer") (JNum 10) "tvly-key" (JNum 7) [])
    = Ok [ [ ("url", JStr "https://jobs.lever.co/acme/1");
             ("title", JStr "Engineer");
             ("description", JStr "Apply now") ] ].
Proof. split; reflexivity. Qed.

(** C7: the request [run_query] posts carries [min(num_results, 20)] as
    [max_results] (and the lookback as [days]). *)
Theorem run_query_caps_max_results (nw : network)
    (query_string : string) (num_results : Z) (api_key : string) (days_back : Z)
    (tr : trace) :
  exists p,
    posts (snd (run_query nw (JStr query_string) (JNum num_results) api_key
                  (JNum days_back) tr)) = posts tr ++ [p] /\
    p_max_results p = JNum (Z.min num_results 20) /\
    p_days p = JNum days_back.
Proof.
  destruct (run_query_eq nw (JStr query_string) num_results api_key (JNum days_back) tr)
    as (logs & -> & Hlogs).
  eexists. cbn [snd]. rewrite posts_app. cbn [posts].
  destruct Hlogs as [-> | [l ->]]; repeat split.
Qed.

(** With 25 results asked for and a lookback of 7 days, the request carries 20. *)
Lemma run_query_caps_max_results_witness :
  exists p,
    posts (snd (run_query (fun _ => PostRaises RequestException)
                  (JStr "site:lever.co analyst") (JNum 25) "tvly-key" (JNum 7) [])) = [p] /\
    p_max_results p = JNum 20 /\
    p_days p = JNum 7.
Proof.
  exact (run_query_caps_max_results (fun _ => PostRaises RequestException)
           "site:lever.co analyst" 25 "tvly-key" 7 []).
Defined.

End SearchClient.

(** ** The orchestrator *)

(** Running [main] up to its first effects. *)
Ltac run_main := unfold run, main, bind, try_except, lift, load_config.

Section Orchestrator.

Lemma rfilter_pure {A} (f : A -> result bool) (g : A -> bool) (l : list A) :
  Forall (fun x => f x = Ok (g x)) l -> rfilter f l = Ok (List.filter g l).
Proof.
  induction 1 as [|x l Hx _ IH]; [reflexivity|].
  cbn [rfilter List.filter]. rewrite Hx, IH. reflexivity.
Qed.

Lemma enabled_obj (q : json) : is_obj q = true -> enabled q = Ok (is_enabled q).
Proof. destruct q; try discriminate. reflexivity. Qed.

Lemma enabled_queries_shape (config : json) :
  config_shape config = true -> enabled_queries config = Ok (config_enabled config).
Proof.
  destruct config as [| | | | |m]; try discriminate.
  unfold config_shape, enabled_queries, config_enabled, config_queries. cbn [Py.get rbind].
  intros H. apply andb_prop in H as [_ H].
  destruct (Py.dict_get m "queries" (JArr [])) as [| | | |qs|]; try discriminate.
  cbn [Py.iter rbind]. apply rfilter_pure.
  rewrite forallb_forall in H. apply Forall_forall. intros q Hq.
  apply enabled_obj, H, list_elem_of_In, Hq.
Qed.

Lemma settings_shape (config : json) :
  config_shape config = true ->
  exists f, Py.get config "settings" (JObj []) = Ok (JObj f).
Proof.
  destruct config as [| | | | |m]; try discriminate.
  unfold config_shape. intros H. apply andb_prop in H as [H _]. cbn [Py.get].
  destruct (Py.dict_get m "settings" (JObj [])); try discriminate. eauto.
Qed.

(** C8: with a configuration that has an enabled query, no dry run and an
    empty API key, the run prints the setup instructions and nothing else,
    posts no request, and ends with status 0. *)
Theorem main_missing_key (env : environment) (a : args) (config : json) :
  json_files env (a_config a) = JSONFile config ->
  config_shape config = true ->
  existsb is_enabled (config_queries config) = true ->
  a_dry_run a = false ->
  a_api_key a = "" ->
  snd (run env a) = [Stderr LogSetup] /\
  posts (snd (run env a)) = [] /\
  exit_status (fst (run env a)) = 0.
Proof.
  intros Hfile Hshape Hen Hdry Hkey.
  assert (run env a = (Raise (SystemExit 0), [Stderr LogSetup])) as ->;
    [|repeat split].
  destruct (settings_shape config Hshape) as [f Hf].
  run_main.
  rewrite Hfile, Hf, (enabled_queries_shape config Hshape). cbn [Py.get].
  destruct (config_enabled config) as [|q qs] eqn:Hq.
  - exfalso. apply existsb_exists in Hen as (q & Hin & Hq').
    assert (In q (config_enabled config)) as Hin'
      by (apply filter_In; split; assumption).
    rewrite Hq in Hin'. destruct Hin'.
  - rewrite Hdry, Hkey. reflexivity.
Qed.

End Orchestrator.
Section Loop.

Lemma result_dict_ok (r : json) :
  result_ok r = true -> exists item, result_dict r = Ok item /\ item_ok item = true.
Proof.
  destruct r as [| | | | |f]; try discriminate.
  unfold result_ok, result_dict, Py.get, Py.dict_get. cbn [rbind].
  intros H. apply andb_prop in H as [H Hc]. apply andb_prop in H as [Hu Ht].
  destruct (Py.lookup "content" f) as [c|]; cbn [default from_option id] in *; unfold id in *.
  2: { eexists. split; [reflexivity|]. unfold item_ok, Py.dict_get. cbn.
       destruct (Py.lookup "url" f), (Py.lookup "title" f); cbn in *;
         rewrite ?Hu, ?Ht; reflexivity. }
  destruct c as [| | |s| |]; try discriminate.
  - eexists. split; [reflexivity|]. unfold item_ok, Py.dict_get. cbn.
    destruct (Py.lookup "url" f), (Py.lookup "title" f); cbn in *;
      rewrite ?Hu, ?Ht; reflexivity.
  - assert (exists d, Py.slice_to 200 (Py.or_ (JStr s) (JStr "")) = Ok d) as [d ->].
    { unfold Py.or_. destruct (Py.truthy (JStr s)); cbn; eauto. }
    eexists. split; [reflexivity|]. unfold item_ok, Py.dict_get. cbn.
    destruct (Py.lookup "url" f), (Py.lookup "title" f); cbn in *;
      rewrite ?Hu, ?Ht; reflexivity.
Qed.

Lemma rmap_result_dict_ok (l : list json) :
  forallb result_ok l = true ->
  exists items, rmap result_dict l = Ok items /\ forallb item_ok items = true.
Proof.
  induction l as [|r l IH]; cbn [forallb rmap]; [eauto|].
  intros H. apply andb_prop in H as [Hr Hl].
  destruct (result_dict_ok r Hr) as (item & -> & Hitem).
  destruct (IH Hl) as (items & -> & Hitems).
  exists (item :: items). split; [reflexivity|]. cbn. rewrite Hitem, Hitems. reflexivity.
Qed.

Lemma outcome_ok_items (o : post_outcome) :
  outcome_ok o = true ->
  exists items, returned_by o = Ok items /\ forallb item_ok items = true.
Proof.
  unfold outcome_ok. intros H. apply orb_prop in H as [H|H].
  { exists []. split; [apply returned_by_failure, H | reflexivity]. }
  destruct o as [e|r]; [discriminate|]. cbn [conformant] in H.
  unfold returned_by. cbn [attempt].
  destruct (parse_response r) as [items|e] eqn:Hp.
  - exists items. split; [reflexivity|].
    unfold parse_response, response_json in Hp.
    destruct (raise_for_status r); cbn [rbind] in Hp; [|discriminate].
    destruct (body r) as [doc|]; [|discriminate]. cbn [rbind] in Hp.
    destruct doc as [| | | | |m]; try discriminate. cbn [doc_ok Py.get rbind] in *.
    destruct (Py.dict_get m "results" (JArr [])) as [| | | |l|]; try discriminate.
    cbn [Py.iter rbind] in Hp.
    destruct (rmap_result_dict_ok l H) as (items' & Hi & Hok). congruence.
  - rewrite (parse_response_Exception r e Hp). exists []. split; reflexivity.
Qed.

Lemma is_job_posting_item_ok (item : pydict) :
  item_ok item = true -> is_job_posting item = Ok (is_job item).
Proof.
  unfold item_ok. intros H. apply andb_prop in H as [Hu Ht].
  destruct (lower_or_field _ Hu) as [u Hu'], (lower_or_field _ Ht) as [t Ht'].
  unfold is_job. rewrite (is_job_posting_eq item u t Hu' Ht'). reflexivity.
Qed.

Lemma hash_item_ok (item : pydict) :
  item_ok item = true -> Py.hash (Py.dict_get item "url" JNull) = Ok (url_key item).
Proof.
  unfold item_ok, url_key. intros H. apply andb_prop in H as [Hu _].
  destruct (Py.dict_get item "url" JNull); try discriminate; reflexivity.
Qed.

Lemma forallb_filter {A} (P f : A -> bool) (l : list A) :
  forallb P l = true -> forallb P (List.filter f l) = true.
Proof.
  rewrite !forallb_forall. intros H x Hx. apply filter_In in Hx as [Hx _]. auto.
Qed.

Lemma rfilter_is_job_posting (raw : list pydict) :
  forallb item_ok raw = true ->
  rfilter is_job_posting raw = Ok (List.filter is_job raw).
Proof.
  intros H. apply rfilter_pure. rewrite forallb_forall in H.
  apply Forall_forall. intros r Hr. apply is_job_posting_item_ok, H, list_elem_of_In, Hr.
Qed.

Lemma filter_new_results_eq (results : list pydict) (seen : gset Py.hkey) :
  forallb item_ok results = true ->
  filter_new_results results seen =
    Ok (List.filter (fun r => negb (bool_decide (url_key r ∈ seen))) results, seen).
Proof.
  intros H. unfold filter_new_results.
  rewrite (rfilter_pure _ (fun r => negb (bool_decide (url_key r ∈ seen)))); [reflexivity|].
  rewrite forallb_forall in H. apply Forall_forall. intros r Hr.
  unfold url_not_in. rewrite hash_item_ok; [reflexivity|].
  apply H, list_elem_of_In, Hr.
Qed.

Lemma add_urls_eq (new : list pydict) (seen : gset Py.hkey) :
  forallb item_ok new = true ->
  add_urls seen new = Ok (seen ∪ keys_of new).
Proof.
  revert seen. induction new as [|r new IH]; intros seen H; cbn [add_urls].
  - f_equal. unfold keys_of. cbn. set_solver.
  - cbn [forallb] in H. apply andb_prop in H as [Hr Hnew].
    rewrite (hash_item_ok r Hr). cbn [rbind]. rewrite (IH _ Hnew).
    f_equal. unfold keys_of. cbn. set_solver.
Qed.


Lemma length_posts_snoc_stderr (tr : trace) (l : log_line) :
  posts (tr ++ [Stderr l]) = posts tr.
Proof. rewrite posts_app. cbn. apply app_nil_r. Qed.




Lemma wf_config_shape (config : json) :
  wf_config config = true -> config_shape config = true.
Proof.
  destruct config as [| | | | |m]; try discriminate.
  unfold wf_config, config_shape. intros H. apply andb_prop in H as [Hs Hq].
  apply andb_true_intro. split.
  - destruct (Py.dict_get m "settings" (JObj [])); try discriminate; reflexivity.
  - destruct (Py.dict_get m "queries" (JArr [])) as [| | | |qs|]; try discriminate.
    rewrite forallb_forall in *. intros q Hin.
    apply Hq in Hin. apply andb_prop in Hin as [Hin _]. exact Hin.
Qed.

Lemma wf_config_enabled (config : json) :
  wf_config config = true -> forallb query_ok (config_enabled config) = true.
Proof.
  destruct config as [| | | | |m]; try discriminate.
  unfold wf_config, config_enabled, config_queries. cbn [Py.get].
  intros H. apply andb_prop in H as [_ Hq].
  destruct (Py.dict_get m "queries" (JArr [])) as [| | | |qs|]; try discriminate.
  rewrite forallb_forall in *. intros q Hin. apply filter_In in Hin as [Hin Hen].
  apply Hq in Hin. apply andb_prop in Hin as [_ Hin].
  rewrite Hen in Hin. exact Hin.
Qed.

Lemma wf_config_settings (config : json) :
  wf_config config = true ->
  exists f n dl,
    Py.get config "settings" (JObj []) = Ok (JObj f) /\
    Py.dict_get f "results_per_query" (JNum 10) = JNum n /\
    Py.dict_get f "delay_between_queries_seconds" (JNum 2) = JNum dl.
Proof.
  destruct config as [| | | | |m]; try discriminate.
  unfold wf_config. cbn [Py.get]. intros H. apply andb_prop in H as [Hs _].
  destruct (Py.dict_get m "settings" (JObj [])) as [| | | | |f]; try discriminate.
  cbn [settings_ok] in Hs. apply andb_prop in Hs as [Hn Hd].
  destruct (Py.dict_get f "results_per_query" (JNum 10)) as [| |n| | |] eqn:En;
    try discriminate.
  destruct (Py.dict_get f "delay_between_queries_seconds" (JNum 2)) as [| |dl| | |] eqn:Ed;
    try discriminate.
  exists f, n, dl. repeat split; assumption.
Qed.




Lemma history_ok_read (env : environment) (a : args) :
  history_ok env a = true ->
  read_job_history env (a_history a) = Ok (load_job_history env (a_history a)).
Proof.
  unfold history_ok, read_job_history.
  destruct (text_files env (a_history a)), (read_error env (a_history a));
    try reflexivity; discriminate.
Qed.




End Loop.

(** ** One url, several queries *)

Section SharedUrl.

Variable u : string.









End SharedUrl.

Section Sections.





End Sections.

Section ReportLines.

Variable u : string.

Lemma count_lines_app (line : string) (l l' : list string) :
  count_lines line (l ++ l') = (count_lines line l + count_lines line l')%nat.
Proof. unfold count_lines. rewrite List.filter_app, length_app. reflexivity. Qed.








End ReportLines.

(** ** The text of a report and its lines *)

Section TextLines.

Lemma one_line_app (a b : string) :
  one_line (a +:+ b) = one_line a && one_line b.
Proof.
  induction a as [|c a IH]; [reflexivity|].
  change (one_line (String c (a +:+ b)) = one_line (String c a) && one_line b).
  cbn [one_line]. rewrite IH, andb_assoc. reflexivity.
Qed.

Lemma one_line_uint (d : Decimal.uint) : one_line (NilEmpty.string_of_uint d) = true.
Proof. induction d; cbn [NilEmpty.string_of_uint one_line]; rewrite ?IHd; reflexivity. Qed.

Lemma one_line_of_nat (n : nat) : one_line (PyStr.of_nat n) = true.
Proof.
  unfold PyStr.of_nat, PyStr.of_Z, NilZero.string_of_int, NilZero.string_of_uint.
  destruct (Z.to_int (Z.of_nat n)) as [d|d]; destruct d;
    try reflexivity; apply one_line_uint.
Qed.

Lemma not_linebreak_newline (c : ascii) :
  PyStr.is_linebreak c = false -> Ascii.eqb c (ascii_of_nat 10) = false.
Proof.
  intros H. destruct (Ascii.eqb_spec c (ascii_of_nat 10)) as [->|]; [|reflexivity].
  discriminate H.
Qed.

Lemma text_lines_single (line : string) :
  one_line line = true -> text_lines line = [line].
Proof.
  induction line as [|c line IH]; [reflexivity|]. cbn [one_line text_lines].
  intros H. apply andb_prop in H as [Hc Hline].
  apply negb_true_iff, not_linebreak_newline in Hc.
  rewrite Hc, (IH Hline). reflexivity.
Qed.

Lemma text_lines_cons (line rest : string) :
  one_line line = true ->
  text_lines (line +:+ PyStr.nl +:+ rest) = line :: text_lines rest.
Proof.
  induction line as [|c line IH]; [reflexivity|]. cbn [one_line].
  intros H. apply andb_prop in H as [Hc Hline].
  apply negb_true_iff, not_linebreak_newline in Hc.
  change (String c line +:+ PyStr.nl +:+ rest) with (String c (line +:+ PyStr.nl +:+ rest)).
  cbn [text_lines]. rewrite Hc, (IH Hline). reflexivity.
Qed.

(** Splitting what was joined gives the lines back, when no line has a
    line boundary of its own. *)
Lemma text_lines_join (lines : list string) :
  lines <> [] ->
  forallb one_line lines = true ->
  text_lines (PyStr.join PyStr.nl lines) = lines.
Proof.
  induction lines as [|line lines IH]; [congruence|]. intros _ H.
  cbn [forallb] in H. apply andb_prop in H as [Hline Hlines].
  destruct lines as [|line' lines].
  - apply text_lines_single, Hline.
  - change (PyStr.join PyStr.nl (line :: line' :: lines))
      with (line +:+ PyStr.nl +:+ PyStr.join PyStr.nl (line' :: lines)).
    rewrite (text_lines_cons _ _ Hline), IH; [reflexivity | discriminate | exact Hlines].
Qed.

Lemma item_lines_plain (i : nat) (item : pydict) :
  single_line_item item = true -> forallb one_line (item_lines i item) = true.
Proof.
  unfold single_line_item, item_lines. intros H.
  apply andb_prop in H as [H Hd]. apply andb_prop in H as [Ht Hu].
  cbn [forallb]. rewrite !one_line_app, Ht, Hu, Hd, one_line_of_nat. reflexivity.
Qed.

Lemma results_lines_plain (results : list pydict) :
  forallb single_line_item results = true ->
  forall i, forallb one_line (results_lines i results) = true.
Proof.
  induction results as [|item results IH]; intros H i; [reflexivity|].
  cbn [forallb] in H. apply andb_prop in H as [Hitem Hrest].
  cbn [results_lines]. rewrite forallb_app, (item_lines_plain i item Hitem), (IH Hrest).
  reflexivity.
Qed.

Lemma query_lines_plain (entry : json * list pydict) :
  single_line_entry entry = true -> forallb one_line (query_lines entry) = true.
Proof.
  destruct entry as [name [|item results]]; [reflexivity|].
  unfold single_line_entry. cbn [fst snd]. intros H. apply andb_prop in H as [Hname Hres].
  unfold query_lines. cbn [forallb].
  rewrite !one_line_app, Hname, forallb_app, (results_lines_plain _ Hres). reflexivity.
Qed.

Lemma format_lines_plain (d : odict) (run_date : string) :
  one_line run_date = true ->
  forallb single_line_entry d = true ->
  forallb one_line (format_lines d run_date) = true.
Proof.
  intros Hdate Hd. unfold format_lines, header_lines.
  assert (forallb one_line (concat (map query_lines d)) = true) as Hsec.
  { induction d as [|entry d IH]; [reflexivity|].
    cbn [forallb] in Hd. apply andb_prop in Hd as [He Hd].
    cbn [map concat]. rewrite forallb_app, (query_lines_plain entry He), (IH Hd).
    reflexivity. }
  destruct (_ =? _)%nat; rewrite forallb_app; cbn [forallb];
    rewrite !one_line_app, Hdate, ?Hsec; reflexivity.
Qed.

(** The lines of the text of a report are the lines it was made of, when
    the date, the names and the fields have no line boundary. *)
Lemma text_lines_format (d : odict) (run_date : string) :
  one_line run_date = true ->
  forallb single_line_entry d = true ->
  text_lines (format_as_text_block d run_date) = format_lines d run_date.
Proof.
  intros Hdate Hd. unfold format_as_text_block.
  apply text_lines_join; [|apply format_lines_plain; assumption].
  unfold format_lines, header_lines. destruct (_ =? _)%nat; discriminate.
Qed.




End TextLines.

(** ** Runs *)

Section Runs.




Lemma main_missing_key_witness :
  let env := example_env example_network in
  let a := example_args (resolve_api_key None None) in
  snd (run env a) = [Stderr LogSetup] /\
  posts (snd (run env a)) = [] /\
  exit_status (fst (run env a)) = 0.
Proof.
  apply (main_missing_key (example_env example_network)
           (example_args (resolve_api_key None None)) example_config); reflexivity.
Defined.



End Runs.

(** * Further properties *)

(** ** The classifier, beyond the claims *)

Section ClassifierMore.

(** X1: each of the ten ATS patterns settles the answer: an item whose url
    contains one is a job posting, whatever else the url contains (a blog or
    news path included) and whatever its title (a string, or none) is. *)
Theorem is_job_posting_any_ats_pattern (item : pydict) (u p : string) :
  Py.lookup "url" item = Some (JStr u) ->
  In p ATS_JOB_PATTERNS ->
  PyStr.contains p u = true ->
  str_or_none (Py.dict_get item "title" JNull) = true ->
  is_job_posting item = Ok true.
Proof.
  intros Hurl Hp Hin Htitle. apply (is_job_posting_ats item u Hurl); [|exact Htitle].
  apply existsb_exists. exists p. split; [exact Hp|].
  apply contains_lower in Hin.
  assert (PyStr.lower p = p) as Hlow.
  { cbn in Hp. repeat (destruct Hp as [<- | Hp]; [reflexivity|]). destruct Hp. }
  rewrite Hlow in Hin. exact Hin.
Qed.

Lemma is_job_posting_any_ats_pattern_witness :
  is_job_posting
    [ ("url", JStr "https://acme.example/news/careers/press-officer");
      ("title", JStr "Acme in the news") ] = Ok true.
Proof.
  apply (is_job_posting_any_ats_pattern _
           "https://acme.example/news/careers/press-officer" "/careers/").
  - reflexivity.
  - cbn. tauto.
  - reflexivity.
  - reflexivity.
Defined.

(** X2: an item without a url (no key, [None] or an empty string) is judged
    by its title alone: it is a job posting exactly when the lowercased
    title contains one of the job-title keywords. *)
Theorem is_job_posting_without_url (item : pydict) (t : string) :
  Py.truthy (Py.dict_get item "url" JNull) = false ->
  Py.lookup "title" item = Some (JStr t) ->
  is_job_posting item =
    Ok (existsb (fun sig => PyStr.contains sig (PyStr.lower t)) job_title_signals).
Proof.
  intros Hurl Htitle.
  rewrite (is_job_posting_eq item "" (PyStr.lower t)).
  - reflexivity.
  - unfold Py.or_. rewrite Hurl. reflexivity.
  - unfold Py.dict_get. rewrite Htitle. apply lower_or_str.
Qed.

Lemma is_job_posting_without_url_witness :
  is_job_posting [ ("title", JStr "Lead Data ANALYST") ] = Ok true.
Proof.
  apply (is_job_posting_without_url [ ("title", JStr "Lead Data ANALYST") ]
           "Lead Data ANALYST"); reflexivity.
Defined.

Lemma lower_or_not_lowerable (v : json) :
  not_lowerable v = true -> Py.lower (Py.or_ v (JStr "")) = Raise AttributeError.
Proof.
  unfold not_lowerable, Py.or_. intros H. apply andb_prop in H as [Ht Hs].
  rewrite Ht. destruct v; try reflexivity. discriminate.
Qed.

Lemma lower_or_lowerable (v : json) :
  not_lowerable v = false -> exists s, Py.lower (Py.or_ v (JStr "")) = Ok s.
Proof.
  unfold not_lowerable, Py.or_. intros H.
  destruct (Py.truthy v) eqn:Ht; [|exists ""; reflexivity].
  destruct v; try discriminate. eexists. reflexivity.
Qed.

(** X3: the classifier raises [AttributeError] on an item whose url, or
    whose title, is a truthy value that is no string (a number, [True], a
    non-empty list or dict): [.lower()] is a string method. *)
Theorem is_job_posting_not_a_string (item : pydict) :
  not_lowerable (Py.dict_get item "url" JNull)
  || not_lowerable (Py.dict_get item "title" JNull) = true ->
  is_job_posting item = Raise AttributeError.
Proof.
  intros H. unfold is_job_posting.
  destruct (not_lowerable (Py.dict_get item "url" JNull)) eqn:Hu.
  - rewrite (lower_or_not_lowerable _ Hu). reflexivity.
  - destruct (lower_or_lowerable _ Hu) as [u ->]. cbn [orb] in H.
    rewrite (lower_or_not_lowerable _ H). reflexivity.
Qed.

Lemma is_job_posting_not_a_string_witness :
  is_job_posting [ ("url", JStr "https://jobs.lever.co/acme/1"); ("title", JNum 42) ]
    = Raise AttributeError.
Proof.
  apply (is_job_posting_not_a_string
           [ ("url", JStr "https://jobs.lever.co/acme/1"); ("title", JNum 42) ]).
  reflexivity.
Defined.

End ClassifierMore.

(** ** The deduplicator, beyond the claims *)

Section DeduplicatorMore.

Lemma url_not_in_hashable (seen : gset Py.hkey) (r : pydict) :
  hashable_url r = true ->
  url_not_in seen r = Ok (negb (bool_decide (url_key r ∈ seen))).
Proof.
  unfold hashable_url, url_not_in, url_key.
  destruct (Py.hash _); [reflexivity | discriminate].
Qed.

Lemma url_outside_key (seen : gset Py.hkey) (r : pydict) :
  hashable_url r = true ->
  url_outside seen r <-> negb (bool_decide (url_key r ∈ seen)) = true.
Proof.
  unfold hashable_url, url_outside, url_key.
  destruct (Py.hash _) as [k|]; [|discriminate]. intros _.
  rewrite negb_true_iff, bool_decide_eq_false. split.
  - intros (k' & [= <-] & Hk). exact Hk.
  - intros Hk. exists k. split; [reflexivity | exact Hk].
Qed.

(** X4: on results whose urls hash, [filter_new_results] keeps exactly the
    results whose url is not in the set: none of them is lost. *)
Theorem filter_new_results_exact (results : list pydict) (seen : gset Py.hkey) :
  forallb hashable_url results = true ->
  exists new,
    filter_new_results results seen = Ok (new, seen) /\
    forall r, In r new <-> In r results /\ url_outside seen r.
Proof.
  intros Hh. unfold filter_new_results.
  rewrite forallb_forall in Hh.
  rewrite (rfilter_pure _ (fun r => negb (bool_decide (url_key r ∈ seen)))).
  - eexists. split; [reflexivity|]. intros r. rewrite filter_In. split.
    + intros [Hin Hk]. split; [exact Hin|]. apply url_outside_key; auto.
    + intros [Hin Hout]. split; [exact Hin|]. apply url_outside_key; auto.
  - apply Forall_forall. intros r Hr. apply url_not_in_hashable, Hh, list_elem_of_In, Hr.
Qed.

Lemma filter_new_results_exact_witness :
  let old := [ ("url", JStr "https://a.example/jobs/1") ] in
  let fresh := [ ("url", JStr "https://a.example/jobs/2") ] in
  let seen : gset Py.hkey := {[ Py.HStr "https://a.example/jobs/1" ]} in
  exists new,
    filter_new_results [old; fresh; fresh] seen = Ok (new, seen) /\
    forall r, In r new <-> In r [old; fresh; fresh] /\ url_outside seen r.
Proof.
  intros old fresh seen.
  apply (filter_new_results_exact [old; fresh; fresh] seen). reflexivity.
Defined.

Lemma rfilter_all_true {A} (f : A -> result bool) (l : list A) :
  Forall (fun x => f x = Ok true) l -> rfilter f l = Ok l.
Proof.
  induction 1 as [|x l Hx _ IH]; [reflexivity|].
  cbn [rfilter]. rewrite Hx, IH. reflexivity.
Qed.

(** X5: filtering is idempotent: what a call returns passes a second call
    against the same set unchanged. *)
Theorem filter_new_results_idempotent (results new : list pydict) (seen seen' : gset Py.hkey) :
  filter_new_results results seen = Ok (new, seen') ->
  filter_new_results new seen' = Ok (new, seen').
Proof.
  unfold filter_new_results.
  destruct (rfilter (url_not_in seen) results) as [out|] eqn:E; [|discriminate].
  cbn [rbind]. intros [= <- <-].
  apply rfilter_sound in E as [Hall _].
  rewrite (rfilter_all_true _ _ Hall). reflexivity.
Qed.

Lemma filter_new_results_idempotent_witness :
  let old := [ ("url", JStr "https://a.example/jobs/1") ] in
  let fresh := [ ("url", JStr "https://a.example/jobs/2") ] in
  let seen : gset Py.hkey := {[ Py.HStr "https://a.example/jobs/1" ]} in
  filter_new_results [fresh] seen = Ok ([fresh], seen).
Proof.
  intros old fresh seen.
  apply (filter_new_results_idempotent [old; fresh] [fresh] seen seen).
  vm_compute. reflexivity.
Defined.

Lemma url_not_in_raises (seen : gset Py.hkey) (r : pydict) (e : exn) :
  url_not_in seen r = Raise e -> e = TypeError.
Proof.
  unfold url_not_in.
  destruct (Py.dict_get r "url" JNull); cbn; intros H; try discriminate;
    injection H as <-; reflexivity.
Qed.

(** X6: a result whose url is a list or a dict makes the whole call raise
    [TypeError] (the membership test cannot hash it): nothing is returned,
    not even the results before it. *)
Theorem filter_new_results_unhashable (results : list pydict) (seen : gset Py.hkey) :
  existsb (fun r => unhashable (Py.dict_get r "url" JNull)) results = true ->
  filter_new_results results seen = Raise TypeError.
Proof.
  intros H. unfold filter_new_results.
  assert (rfilter (url_not_in seen) results = Raise TypeError) as ->; [|reflexivity].
  induction results as [|r results IH]; [discriminate|].
  cbn [existsb] in H. cbn [rfilter].
  destruct (url_not_in seen r) as [b|e] eqn:Er.
  - cbn [rbind]. rewrite IH; [reflexivity|].
    destruct (unhashable (Py.dict_get r "url" JNull)) eqn:Hu; [|exact H].
    exfalso. unfold url_not_in in Er.
    destruct (Py.dict_get r "url" JNull); discriminate.
  - rewrite (url_not_in_raises seen r e Er). reflexivity.
Qed.

Lemma filter_new_results_unhashable_witness :
  filter_new_results
    [ [ ("url", JStr "https://a.example/jobs/1") ];
      [ ("url", JArr [ JStr "https://a.example/jobs/2" ]) ] ] ∅ = Raise TypeError.
Proof.
  apply (filter_new_results_unhashable
           [ [ ("url", JStr "https://a.example/jobs/1") ];
             [ ("url", JArr [ JStr "https://a.example/jobs/2" ]) ] ] ∅).
  reflexivity.
Defined.

End DeduplicatorMore.

(** ** The report, beyond the claims *)

Section FormatterMore.

Lemma list_sum_cons (n : nat) (l : list nat) : list_sum (n :: l) = (n + list_sum l)%nat.
Proof. reflexivity. Qed.

Lemma has_results_total (d : odict) :
  list_sum (map (fun e => length (snd e)) (List.filter has_results d)) =
  list_sum (map (fun e => length (snd e)) d).
Proof.
  induction d as [|[key v] d IH]; [reflexivity|].
  cbn [List.filter]. unfold has_results at 1. cbn [snd].
  destruct v; cbn [map snd]; rewrite !list_sum_cons, IH; reflexivity.
Qed.

Lemma has_results_lines (d : odict) :
  concat (map query_lines (List.filter has_results d)) = concat (map query_lines d).
Proof.
  induction d as [|[key v] d IH]; [reflexivity|].
  cbn [List.filter]. unfold has_results at 1. cbn [snd].
  destruct v; cbn [map concat]; rewrite IH; reflexivity.
Qed.

(** X7: queries without new results leave no trace in the report: the text
    is the same as for the mapping without them. *)
Theorem format_as_text_block_skips_empty (results_by_query : odict) (run_date : string) :
  format_as_text_block (List.filter has_results results_by_query) run_date =
  format_as_text_block results_by_query run_date.
Proof.
  unfold format_as_text_block, format_lines.
  rewrite has_results_total, has_results_lines. reflexivity.
Qed.

Lemma item_lines_closers (i : nat) (item : pydict) :
  count_lines "---" (item_lines i item) = 1%nat.
Proof. reflexivity. Qed.

Lemma results_lines_closers (results : list pydict) :
  forall i, count_lines "---" (results_lines i results) = length results.
Proof.
  induction results as [|item results IH]; intros i; [reflexivity|].
  cbn [results_lines length]. rewrite count_lines_app, item_lines_closers, IH. reflexivity.
Qed.

Lemma query_lines_closers (entry : json * list pydict) :
  count_lines "---" (query_lines entry) = length (snd entry).
Proof.
  destruct entry as [name [|item results]]; [reflexivity|]. cbn [snd].
  unfold query_lines.
  change (count_lines "---"
            (("Query: " +:+ PyStr.chr 34 +:+ Py.str name +:+ PyStr.chr 34)
               :: results_lines 1 (item :: results) ++ [""]))
    with (count_lines "---" (results_lines 1 (item :: results) ++ [""])).
  rewrite count_lines_app, results_lines_closers.
  change (count_lines "---" [""]) with 0%nat. apply Nat.add_0_r.
Qed.

Lemma sections_closers (d : odict) :
  count_lines "---" (concat (map query_lines d)) =
  list_sum (map (fun e => length (snd e)) d).
Proof.
  induction d as [|entry d IH]; [reflexivity|].
  cbn [map concat]. rewrite list_sum_cons, count_lines_app, query_lines_closers, IH.
  reflexivity.
Qed.

Lemma format_lines_closers (d : odict) (run_date : string) :
  count_lines "---" (format_lines d run_date) = list_sum (map (fun e => length (snd e)) d).
Proof.
  unfold format_lines.
  destruct (Nat.eqb_spec (list_sum (map (fun e => length (snd e)) d)) 0) as [Hz|Hnz].
  - rewrite Hz. reflexivity.
  - rewrite count_lines_app, sections_closers. reflexivity.
Qed.

(** X8: when the date, the query names and the titles, urls and snippets
    have no line boundary of their own, the text of a report has one closing line
    [---] for each result of the mapping: no other line of the text can be
    mistaken for one (a snippet that is [---] is printed after [Snippet: ]). *)
Theorem format_lines_one_block_per_result (results_by_query : odict) (run_date : string) :
  one_line run_date = true ->
  forallb single_line_entry results_by_query = true ->
  count_lines "---" (text_lines (format_as_text_block results_by_query run_date)) =
  list_sum (map (fun e => length (snd e)) results_by_query).
Proof.
  intros Hdate Hplain. rewrite (text_lines_format _ _ Hdate Hplain).
  apply format_lines_closers.
Qed.

Lemma format_lines_one_block_per_result_witness :
  count_lines "---"
    (text_lines
       (format_as_text_block
          [ (JStr "lever", [ [ ("url", JStr "https://jobs.lever.co/acme/1");
                               ("title", JStr "Engineer");
                               ("description", JStr "---") ];
                             [ ("url", JStr "https://jobs.lever.co/acme/2");
                               ("title", JStr "Designer");
                               ("description", JStr "Remote") ] ]);
            (JStr "greenhouse", []) ]
          "2024-05-01")) = 2%nat.
Proof.
  apply (format_lines_one_block_per_result
           [ (JStr "lever", [ [ ("url", JStr "https://jobs.lever.co/acme/1");
                                ("title", JStr "Engineer");
                                ("description", JStr "---") ];
                              [ ("url", JStr "https://jobs.lever.co/acme/2");
                                ("title", JStr "Designer");
                                ("description", JStr "Remote") ] ]);
             (JStr "greenhouse", []) ]
           "2024-05-01"); reflexivity.
Defined.

End FormatterMore.

(** ** The search client, beyond the claims *)

Section SearchClientMore.

Lemma rmap_Forall {A B} (f : A -> result B) (P : B -> Prop) (l : list A) (out : list B) :
  (forall x y, f x = Ok y -> P y) ->
  rmap f l = Ok out -> Forall P out.
Proof.
  intros Hf. revert out. induction l as [|x l IH]; cbn [rmap]; intros out H.
  - injection H as <-. constructor.
  - destruct (f x) as [y|] eqn:Hx; [|discriminate]. cbn [rbind] in H.
    destruct (rmap f l) as [ys|]; [|discriminate]. cbn [rbind] in H.
    injection H as <-. constructor; [eapply Hf, Hx | apply IH; reflexivity].
Qed.

Lemma take_length (n : nat) (s : string) : (String.length (PyStr.take n s) <= n)%nat.
Proof.
  revert s. induction n as [|n IH]; intros [|c s]; cbn; try lia.
  specialize (IH s). lia.
Qed.

Lemma slice_to_bound (n : nat) (v d : json) :
  Py.slice_to n v = Ok d ->
  match d with
  | JStr s => (String.length s <= n)%nat
  | JArr l => (length l <= n)%nat
  | _ => False
  end.
Proof.
  destruct v; cbn [Py.slice_to]; try discriminate; intros [= <-].
  - apply take_length.
  - rewrite length_firstn. lia.
Qed.

Lemma result_dict_built (r : json) (item : pydict) :
  result_dict r = Ok item -> built_item item.
Proof.
  unfold result_dict. destruct r as [| | | | |f]; try discriminate. cbn [Py.get rbind].
  destruct (Py.slice_to 200 _) as [d|] eqn:Hs; [|discriminate]. cbn [rbind].
  intros [= <-]. eexists _, _, d. split; [reflexivity|].
  exact (slice_to_bound 200 _ d Hs).
Qed.

(** X9: whatever the API answers, each result [run_query] returns is a dict
    with exactly the keys url, title and description, in this order, and its
    description has at most 200 characters. *)
Theorem run_query_results_built (nw : network)
    (query_string : string) (num_results : Z) (api_key : string) (days_back : Z)
    (tr : trace) (items : list pydict) :
  fst (run_query nw (JStr query_string) (JNum num_results) api_key (JNum days_back) tr)
    = Ok items ->
  Forall built_item items.
Proof.
  destruct (run_query_eq nw (JStr query_string) num_results api_key (JNum days_back) tr)
    as (logs & -> & _).
  cbn [fst]. unfold returned_by.
  destruct (attempt _) as [items'|e] eqn:Ha.
  - intros [= <-]. destruct (nw _) as [e|r]; [discriminate|]. cbn [attempt] in Ha.
    unfold parse_response in Ha.
    destruct (raise_for_status r); [|discriminate]. cbn [rbind] in Ha.
    destruct (response_json r) as [doc|]; [|discriminate]. cbn [rbind] in Ha.
    destruct (Py.get doc "results" (JArr [])) as [results|]; [|discriminate].
    cbn [rbind] in Ha.
    destruct (Py.iter results) as [rs|]; [|discriminate]. cbn [rbind] in Ha.
    eapply rmap_Forall; [apply result_dict_built | exact Ha].
  - destruct (is_Exception e); [|discriminate]. intros [= <-]. constructor.
Qed.

Lemma run_query_results_built_witness :
  Forall built_item
    [ [ ("url", JStr "https://jobs.lever.co/acme/1");
        ("title", JStr "");
        ("description", JStr "Apply now") ] ].
Proof.
  apply (run_query_results_built
           (fun _ => example_response
                       [ JObj [ ("content", JStr "Apply now");
                                ("url", JStr "https://jobs.lever.co/acme/1") ] ])
           "engineer" 10 "tvly-key" 7 []).
  reflexivity.
Defined.

(** X10: a rejected key (401) and a rate limit (429) get their own message:
    [run_query] posts the request, prints that one message and returns the
    empty list, whatever the body of the response is. *)
Theorem run_query_auth_and_rate_limit (nw : network)
    (query_string : string) (num_results : Z) (api_key : string) (days_back : Z)
    (tr : trace) (status : Z) (doc : option json) :
  nw (length (posts tr)) = PostReturns {| status_code := status; body := doc |} ->
  status = 401 \/ status = 429 ->
  run_query nw (JStr query_string) (JNum num_results) api_key (JNum days_back) tr =
    (Ok [],
     tr ++ [ Post {| p_api_key := api_key;
                     p_query := JStr query_string;
                     p_search_depth := "basic";
                     p_max_results := JNum (Z.min num_results 20);
                     p_days := JNum days_back |};
             Stderr (if status =? 401 then LogInvalidKey else LogRateLimit) ]).
Proof.
  intros Hnw Hst. unfold run_query. rewrite request_payload_int.
  unfold bind at 1, lift at 1. unfold try_except. rewrite run_query_try_eq, Hnw.
  cbn [attempt]. unfold parse_response, raise_for_status. cbn [status_code].
  destruct Hst as [-> | ->]; cbn; rewrite <- app_assoc; reflexivity.
Qed.

Lemma run_query_auth_and_rate_limit_witness :
  run_query failing_network (JStr "site:lever.co analyst") (JNum 25) "tvly-bad" (JNum 7)
    [ Post {| p_api_key := "tvly-bad"; p_query := JStr "first"; p_search_depth := "basic";
              p_max_results := JNum 20; p_days := JNum 7 |} ] =
    (Ok [],
     [ Post {| p_api_key := "tvly-bad"; p_query := JStr "first"; p_search_depth := "basic";
               p_max_results := JNum 20; p_days := JNum 7 |} ]
     ++ [ Post {| p_api_key := "tvly-bad";
                  p_query := JStr "site:lever.co analyst";
                  p_search_depth := "basic";
                  p_max_results := JNum (Z.min 25 20);
                  p_days := JNum 7 |};
          Stderr (if 401 =? 401 then LogInvalidKey else LogRateLimit) ]).
Proof.
  apply (run_query_auth_and_rate_limit failing_network "site:lever.co analyst" 25
           "tvly-bad" 7 _ 401 None).
  - reflexivity.
  - left. reflexivity.
Defined.

(** X11: a result count that is no number ([None], a string, a list, a dict)
    makes [run_query] raise [TypeError] to its caller before anything is
    posted or printed: the payload is built outside the [try] block. *)
Theorem run_query_count_not_a_number (nw : network)
    (query_string : json) (num_results : json) (api_key : string) (days_back : json)
    (tr : trace) :
  match num_results with JNum _ | JBool _ => False | _ => True end ->
  run_query nw query_string num_results api_key days_back tr = (Raise TypeError, tr).
Proof.
  intros H. unfold run_query, bind, lift, request_payload.
  destruct num_results; try contradiction; reflexivity.
Qed.

Lemma run_query_count_not_a_number_witness :
  run_query example_network (JStr "site:lever.co analyst") (JStr "ten") "tvly-key" (JNum 7) []
    = (Raise TypeError, []).
Proof.
  apply (run_query_count_not_a_number example_network (JStr "site:lever.co analyst")
           (JStr "ten") "tvly-key" (JNum 7) []).
  exact I.
Defined.

Lemma result_dict_fields (r : json) :
  result_ok r = true ->
  exists item,
    result_dict r = Ok item /\
    Py.dict_get item "url" JNull = field_or_empty "url" r /\
    Py.dict_get item "title" JNull = field_or_empty "title" r.
Proof.
  destruct r as [| | | | |f]; try discriminate.
  unfold result_ok, result_dict. cbn [Py.get rbind field_or_empty].
  intros H. apply andb_prop in H as [_ Hc].
  assert (exists d, Py.slice_to 200 (Py.or_ (Py.dict_get f "content" (JStr "")) (JStr ""))
                    = Ok d) as [d ->].
  { unfold Py.dict_get in *. destruct (Py.lookup "content" f) as [c|];
      cbn [default from_option id] in *; unfold id in *.
    - destruct c as [| | |s| |]; try discriminate.
      + eexists. reflexivity.
      + unfold Py.or_. destruct (Py.truthy (JStr s)); cbn [Py.slice_to]; eauto.
    - eexists. reflexivity. }
  eexists. split; [reflexivity|]. split; reflexivity.
Qed.

Lemma rmap_result_dict_fields (l : list json) :
  forallb result_ok l = true ->
  exists items,
    rmap result_dict l = Ok items /\
    map (fun item => Py.dict_get item "url" JNull) items = map (field_or_empty "url") l /\
    map (fun item => Py.dict_get item "title" JNull) items = map (field_or_empty "title") l.
Proof.
  induction l as [|r l IH]; cbn [forallb rmap]; [exists []; repeat split|].
  intros H. apply andb_prop in H as [Hr Hl].
  destruct (result_dict_fields r Hr) as (item & -> & Hu & Ht).
  destruct (IH Hl) as (items & -> & Hus & Hts).
  exists (item :: items). cbn [rbind map]. rewrite Hu, Ht, Hus, Hts. repeat split.
Qed.

(** X12: for a response that is no error and whose document lists results
    with string (or null) fields, [run_query] posts the request, prints
    nothing, and returns one dict for each result, in order, with its url
    and title as sent (the empty string for a field that is not there).  A
    document without [results] gives the empty list. *)
Theorem run_query_success (nw : network)
    (query_string : string) (num_results : Z) (api_key : string) (days_back : Z)
    (tr : trace) (status : Z) (m : pydict) (l : list json) :
  nw (length (posts tr)) = PostReturns {| status_code := status; body := Some (JObj m) |} ->
  (400 <=? status) && (status <? 600) = false ->
  Py.dict_get m "results" (JArr []) = JArr l ->
  forallb result_ok l = true ->
  exists items,
    run_query nw (JStr query_string) (JNum num_results) api_key (JNum days_back) tr =
      (Ok items,
       tr ++ [ Post {| p_api_key := api_key;
                       p_query := JStr query_string;
                       p_search_depth := "basic";
                       p_max_results := JNum (Z.min num_results 20);
                       p_days := JNum days_back |} ]) /\
    map (fun item => Py.dict_get item "url" JNull) items = map (field_or_empty "url") l /\
    map (fun item => Py.dict_get item "title" JNull) items = map (field_or_empty "title") l.
Proof.
  intros Hnw Hst Hres Hok.
  destruct (rmap_result_dict_fields l Hok) as (items & Hitems & Hu & Ht).
  exists items. split; [|split; assumption].
  unfold run_query. rewrite request_payload_int.
  unfold bind at 1, lift at 1. unfold try_except. rewrite run_query_try_eq, Hnw.
  cbn [attempt]. unfold parse_response, raise_for_status, response_json.
  cbn [status_code body]. rewrite Hst. cbn [rbind Py.get]. rewrite Hres.
  cbn [Py.iter rbind]. rewrite Hitems. reflexivity.
Qed.

Lemma run_query_success_witness :
  exists items,
    run_query example_network (JStr "product manager") (JNum 10) "tvly-key" (JNum 7) [] =
      (Ok items,
       [] ++ [ Post {| p_api_key := "tvly-key";
                       p_query := JStr "product manager";
                       p_search_depth := "basic";
                       p_max_results := JNum (Z.min 10 20);
                       p_days := JNum 7 |} ]) /\
    map (fun item => Py.dict_get item "url" JNull) items =
      map (field_or_empty "url") [ example_result shared_url "Product Manager" ] /\
    map (fun item => Py.dict_get item "title" JNull) items =
      map (field_or_empty "title") [ example_result shared_url "Product Manager" ].
Proof.
  apply (run_query_success example_network "product manager" 10 "tvly-key" 7 [] 200
           [ ("results", JArr [ example_result shared_url "Product Manager" ]) ]);
    reflexivity.
Defined.

End SearchClientMore.

(** ** The history file *)

Section History.

Lemma rev_app_rev_app (l s t : string) :
  String.rev_app (String.rev_app l s) t = String.rev_app s (l +:+ t).
Proof.
  revert s t. induction l as [|c l IH]; intros s t; [reflexivity|].
  cbn [String.rev_app]. rewrite IH. reflexivity.
Qed.

Lemma append_nil_r (s : string) : s +:+ "" = s.
Proof.
  induction s as [|c s IH]; [reflexivity|].
  change (String c (s +:+ "") = String c s). rewrite IH. reflexivity.
Qed.

Lemma space_of_linebreak (c : ascii) :
  PyStr.is_linebreak c = true -> PyStr.is_space c = true.
Proof. destruct c as [[] [] [] [] [] [] [] []]; vm_compute; intros H; congruence. Qed.

(** Reading one clean line, ended by a newline, with [cur] read before it. *)
Lemma splitlines_from_line (line rest cur : string) :
  no_space line = true ->
  PyStr.splitlines_from cur (line +:+ PyStr.nl +:+ rest) =
    String.rev (String.rev_app line cur) :: PyStr.splitlines_from "" rest.
Proof.
  revert cur. induction line as [|c line IH]; intros cur Hline.
  - change ("" +:+ PyStr.nl +:+ rest) with (String (ascii_of_nat 10) rest).
    cbn [PyStr.splitlines_from String.rev_app].
    change (PyStr.is_linebreak (ascii_of_nat 10)) with true. cbn iota.
    destruct rest as [|c' rest']; reflexivity.
  - cbn [no_space] in Hline. apply andb_prop in Hline as [Hc Hline].
    change (String c line +:+ PyStr.nl +:+ rest)
      with (String c (line +:+ PyStr.nl +:+ rest)).
    cbn [PyStr.splitlines_from String.rev_app].
    destruct (PyStr.is_linebreak c) eqn:Hlb.
    + apply space_of_linebreak in Hlb. rewrite Hlb in Hc. discriminate.
    + apply IH, Hline.
Qed.

Lemma splitlines_lines_text (lines : list string) :
  forallb no_space lines = true ->
  PyStr.splitlines (lines_text lines) = lines.
Proof.
  unfold PyStr.splitlines. induction lines as [|line lines IH]; intros H; [reflexivity|].
  cbn [forallb] in H. apply andb_prop in H as [Hline Hlines].
  cbn [lines_text]. rewrite (splitlines_from_line line _ "" Hline), (IH Hlines).
  unfold String.rev. rewrite rev_app_rev_app. cbn [String.rev_app].
  rewrite append_nil_r. reflexivity.
Qed.

Lemma rstrip_no_space (s : string) : no_space s = true -> PyStr.rstrip s = s.
Proof.
  induction s as [|c s IH]; [reflexivity|]. cbn [no_space PyStr.rstrip].
  intros H. apply andb_prop in H as [Hc Hs]. rewrite (IH Hs).
  destruct s; [|reflexivity]. apply negb_true_iff in Hc. rewrite Hc. reflexivity.
Qed.

Lemma strip_no_space (s : string) : no_space s = true -> PyStr.strip s = s.
Proof.
  intros H. unfold PyStr.strip.
  assert (PyStr.lstrip s = s) as ->; [|apply rstrip_no_space, H].
  destruct s as [|c s]; [reflexivity|]. cbn [no_space] in H.
  apply andb_prop in H as [Hc _]. apply negb_true_iff in Hc.
  cbn [PyStr.lstrip]. rewrite Hc. reflexivity.
Qed.

Lemma history_lines_clean (lines : list string) :
  forallb clean_url lines = true ->
  map (fun line => Py.HStr (PyStr.strip line))
      (List.filter (fun line => nonempty (PyStr.strip line)) lines) =
  map Py.HStr lines.
Proof.
  induction lines as [|line lines IH]; [reflexivity|].
  cbn [forallb]. intros H. apply andb_prop in H as [Hline Hlines].
  unfold clean_url in Hline. apply andb_prop in Hline as [Hne Hns].
  cbn [List.filter]. rewrite (strip_no_space line Hns), Hne.
  cbn [map]. rewrite (strip_no_space line Hns), (IH Hlines). reflexivity.
Qed.

(** X13: a history file that holds one url on each line is read back as the
    set of these urls (urls that are not empty and have no whitespace). *)
Theorem load_job_history_round_trip (env : environment) (history_path : string)
    (urls : list string) :
  text_files env history_path = Some (lines_text urls) ->
  forallb clean_url urls = true ->
  load_job_history env history_path = list_to_set (map Py.HStr urls).
Proof.
  intros Hfile Hclean. unfold load_job_history. rewrite Hfile.
  rewrite splitlines_lines_text.
  - rewrite (history_lines_clean urls Hclean). reflexivity.
  - rewrite forallb_forall in *. intros u Hu. apply Hclean in Hu.
    unfold clean_url in Hu. apply andb_prop in Hu as [_ Hu]. exact Hu.
Qed.

Lemma load_job_history_round_trip_witness :
  let urls := [ "https://jobs.lever.co/acme/1"; "https://boards.greenhouse.io/acme/jobs/2" ] in
  let env := {| net := failing_network;
                json_files := fun _ => NoFile;
                text_files := fun _ => Some (lines_text urls);
                today := "2024-05-01";
                read_error := fun _ => None;
                write_error := fun _ => None |} in
  load_job_history env ".job_history.txt" = list_to_set (map Py.HStr urls).
Proof.
  intros urls env.
  apply (load_job_history_round_trip env ".job_history.txt" urls); reflexivity.
Defined.

(** X14: whatever the history file holds, every member of the loaded set is
    a string that is not empty: blank lines and lines of whitespace are
    dropped.  A missing file gives the empty set. *)
Theorem load_job_history_members (env : environment) (history_path : string) (k : Py.hkey) :
  k ∈ load_job_history env history_path ->
  exists s, k = Py.HStr s /\ s <> "" /\ text_files env history_path <> None.
Proof.
  unfold load_job_history. destruct (text_files env history_path) as [text|].
  - rewrite elem_of_list_to_set, list_elem_of_In, in_map_iff.
    intros (line & <- & Hin). apply filter_In in Hin as [_ Hne].
    exists (PyStr.strip line). split; [reflexivity|]. split; [|discriminate].
    intros E. rewrite E in Hne. discriminate.
  - intros H. apply not_elem_of_empty in H. destruct H.
Qed.

Lemma load_job_history_members_witness :
  exists s, Py.HStr "https://jobs.lever.co/old/3" = Py.HStr s /\ s <> "" /\
            text_files (example_env example_network) ".job_history.txt" <> None.
Proof.
  apply (load_job_history_members (example_env example_network) ".job_history.txt").
  match goal with |- ?x ∈ ?X => apply (bool_decide_eq_true_1 (x ∈ X)) end.
  vm_compute. reflexivity.
Defined.

End History.

(** ** The orchestrator, beyond the claims *)

Section OrchestratorMore.




Lemma query_ok_subscripts (q : json) :
  query_ok q = true ->
  exists nm,
    Py.subscript q "name" = Ok (JStr nm) /\
    Py.subscript q "string" = Ok (query_string q) /\
    query_name q = JStr nm.
Proof.
  destruct q as [| | | | |f]; try discriminate.
  unfold query_ok, Py.subscript, query_name, query_string, Py.dict_get.
  destruct (Py.lookup "name" f) as [[| | |nm| |]|]; try discriminate.
  destruct (Py.lookup "string" f) as [qstring|]; try discriminate.
  intros _. exists nm. repeat split.
Qed.



Lemma wf_config_setting (config : json) :
  wf_config config = true ->
  exists f n dl,
    Py.get config "settings" (JObj []) = Ok (JObj f) /\
    Py.dict_get f "results_per_query" (JNum 10) = JNum n /\
    Py.dict_get f "delay_between_queries_seconds" (JNum 2) = JNum dl /\
    config_setting config "results_per_query" (JNum 10) = JNum n /\
    config_setting config "delay_between_queries_seconds" (JNum 2) = JNum dl /\
    config_setting config "days_back" (JNum 7) = Py.dict_get f "days_back" (JNum 7).
Proof.
  intros Hwf. destruct (wf_config_settings config Hwf) as (f & n & dl & Hf & Hn & Hdl).
  exists f, n, dl. unfold config_setting. rewrite Hf. repeat split; assumption.
Qed.


End OrchestratorMore.

Section RunsMore.

(** X15: without a configuration file the run prints one error message,
    posts nothing, and ends with status 0. *)
Theorem main_without_config (env : environment) (a : args) :
  json_files env (a_config a) = NoFile ->
  run env a = (Raise (SystemExit 0), [Stderr (LogConfigNotFound (a_config a))]) /\
  exit_status (fst (run env a)) = 0.
Proof.
  intros H.
  assert (run env a = (Raise (SystemExit 0), [Stderr (LogConfigNotFound (a_config a))]))
    as ->; [|split; reflexivity].
  run_main. rewrite H. reflexivity.
Qed.

Lemma main_without_config_witness :
  let env := {| net := example_network; json_files := fun _ => NoFile;
                text_files := fun _ => None; today := "2024-05-01";
                read_error := fun _ => None; write_error := fun _ => None |} in
  let a := example_args "tvly-key" in
  run env a = (Raise (SystemExit 0), [Stderr (LogConfigNotFound (a_config a))]) /\
  exit_status (fst (run env a)) = 0.
Proof.
  intros env a. apply (main_without_config env a). reflexivity.
Defined.

(** X16: a configuration file that is not JSON is not handled: the
    [JSONDecodeError] of [json.load] leaves [main], nothing is printed or
    posted, and the process ends with status 1. *)
Theorem main_config_not_json (env : environment) (a : args) :
  json_files env (a_config a) = NotJSON ->
  run env a = (Raise JSONDecodeError, []) /\
  exit_status (fst (run env a)) = 1.
Proof.
  intros H. assert (run env a = (Raise JSONDecodeError, [])) as ->; [|split; reflexivity].
  run_main. rewrite H. reflexivity.
Qed.

Lemma main_config_not_json_witness :
  let env := {| net := example_network; json_files := fun _ => NotJSON;
                text_files := fun _ => None; today := "2024-05-01";
                read_error := fun _ => None; write_error := fun _ => None |} in
  let a := example_args "tvly-key" in
  run env a = (Raise JSONDecodeError, []) /\ exit_status (fst (run env a)) = 1.
Proof.
  intros env a. apply (main_config_not_json env a). reflexivity.
Defined.

Lemma main_no_enabled_trace (env : environment) (a : args) (config : json) :
  json_files env (a_config a) = JSONFile config ->
  config_shape config = true ->
  config_enabled config = [] ->
  run env a = (Raise (SystemExit 0), [Stderr LogNoEnabled]).
Proof.
  intros Hfile Hshape Hen.
  destruct (settings_shape config Hshape) as [f Hf].
  run_main. rewrite Hfile, Hf, (enabled_queries_shape config Hshape), Hen. reflexivity.
Qed.

(** X17: with no enabled query the run prints one message and ends with
    status 0, before it looks at the dry-run flag, the API key or the
    history file. *)
Theorem main_no_enabled_queries (env : environment) (a : args) (config : json) :
  json_files env (a_config a) = JSONFile config ->
  config_shape config = true ->
  config_enabled config = [] ->
  run env a = (Raise (SystemExit 0), [Stderr LogNoEnabled]) /\
  exit_status (fst (run env a)) = 0.
Proof.
  intros Hfile Hshape Hen.
  rewrite (main_no_enabled_trace env a config Hfile Hshape Hen). split; reflexivity.
Qed.

Lemma main_no_enabled_queries_witness :
  let config := JObj [ ("queries", JArr [ JObj [ ("name", JStr "off");
                                                 ("string", JStr "site:lever.co");
                                                 ("enabled", JBool false) ] ]) ] in
  let env := {| net := example_network; json_files := fun _ => JSONFile config;
                text_files := fun _ => None; today := "2024-05-01";
                read_error := fun _ => None; write_error := fun _ => None |} in
  run env (example_args "") = (Raise (SystemExit 0), [Stderr LogNoEnabled]) /\
  exit_status (fst (run env (example_args ""))) = 0.
Proof.
  intros config env. apply (main_no_enabled_queries env (example_args "") config); reflexivity.
Defined.

Lemma mfor_dry_run_line_trace (qs : list json) (tr : trace) :
  forallb query_ok qs = true ->
  mfor qs dry_run_line tr =
    (Ok tt, tr ++ map (fun q => Stdout (DryRunQuery (query_name q) (query_string q))) qs).
Proof.
  revert tr. induction qs as [|q qs IH]; intros tr H.
  - cbn. rewrite app_nil_r. reflexivity.
  - cbn [forallb] in H. apply andb_prop in H as [Hq Hqs].
    destruct (query_ok_subscripts q Hq) as (nm & Hname & Hstring & Hnm).
    cbn [mfor map]. unfold bind at 1. unfold dry_run_line at 1, bind, lift, emit.
    rewrite Hname, Hstring, (IH _ Hqs), Hnm, <- app_assoc. reflexivity.
Qed.

(** X18: a dry run prints a header with the number of enabled queries and
    the lookback, then the name and the string of each enabled query in
    order; it posts nothing and ends with status 0, with or without an API
    key. *)
Theorem main_dry_run (env : environment) (a : args) (config : json) :
  json_files env (a_config a) = JSONFile config ->
  wf_config config = true ->
  config_enabled config <> [] ->
  a_dry_run a = true ->
  run env a =
    (Raise (SystemExit 0),
     Stdout (DryRunHeader (length (config_enabled config))
               (config_setting config "days_back" (JNum 7)))
     :: map (fun q => Stdout (DryRunQuery (query_name q) (query_string q)))
          (config_enabled config)).
Proof.
  intros Hfile Hwf Hen Hdry.
  destruct (wf_config_setting config Hwf) as (f & n & dl & Hf & _ & _ & _ & _ & Hdb).
  pose proof (wf_config_enabled config Hwf) as Hqs.
  run_main.
  rewrite Hfile, Hf, (enabled_queries_shape config (wf_config_shape config Hwf)), Hdb.
  destruct (config_enabled config) as [|q qs] eqn:E; [congruence|].
  rewrite Hdry. cbn [Py.get]. unfold emit.
  rewrite (mfor_dry_run_line_trace (q :: qs) _ Hqs). reflexivity.
Qed.

Lemma main_dry_run_witness :
  let env := example_env failing_network in
  let a := {| a_config := "boolean-search-config.json"; a_history := ".job_history.txt";
              a_output := None; a_api_key := ""; a_dry_run := true |} in
  run env a =
    (Raise (SystemExit 0),
     Stdout (DryRunHeader (length (config_enabled example_config))
               (config_setting example_config "days_back" (JNum 7)))
     :: map (fun q => Stdout (DryRunQuery (query_name q) (query_string q)))
          (config_enabled example_config)).
Proof.
  intros env a. apply (main_dry_run env a example_config); try reflexivity.
  discriminate.
Defined.








End RunsMore.

Section ReportMore.













End ReportMore.

(** ** Runs that end by an exception *)

Section RunFailures.

(** A turn of the loop that is not the last, with a delay [time.sleep] does
    not take: the search is made, and the pause raises. *)
Lemma query_step_overflow (env : environment) (n dl : Z) (db : json) (key : string)
    (N i : nat) (q : json) (st : loop_state) (tr : trace) :
  query_ok q = true ->
  max_sleep < dl ->
  Z.of_nat i < Z.of_nat N - 1 ->
  outcome_ok (net env (length (posts tr))) = true ->
  exists evs,
    query_step env (JNum n) (JNum dl) db key N i q st tr = (Raise OverflowError, tr ++ evs) /\
    posts evs = [query_payload n key db q] /\
    sleeps evs = [] /\
    stdouts evs = [] /\
    writes evs = [].
Proof.
  intros Hq Hdl Hi Ho.
  destruct (query_ok_subscripts q Hq) as (nm & Hname & Hstring & Hnm).
  destruct (outcome_ok_items _ Ho) as (raw & Hraw & Hok).
  unfold query_step.
  unfold bind at 1, lift at 1. rewrite Hname.
  unfold bind at 1, log at 1, emit at 1.
  unfold bind at 1, lift at 1. rewrite Hstring.
  unfold bind at 1.
  destruct (run_query_eq (net env) (query_string q) n key db
              (tr ++ [Stderr (LogRunning (JStr nm))]))
    as (logs & -> & Hlogs).
  rewrite length_posts_snoc_stderr, Hraw.
  unfold bind at 1, lift at 1. rewrite (rfilter_is_job_posting raw Hok).
  unfold bind at 1, lift at 1.
  rewrite (filter_new_results_eq _ _ (forallb_filter _ _ _ Hok)).
  fold (fresh_jobs (seen_urls st) raw).
  assert (forallb item_ok (fresh_jobs (seen_urls st) raw) = true) as Hnew
    by (unfold fresh_jobs; do 2 apply forallb_filter; exact Hok).
  unfold bind at 1, lift at 1. rewrite (add_urls_eq _ _ Hnew).
  unfold bind at 1, lift at 1. cbn [odict_set Py.hash rbind].
  unfold bind at 1, log at 1, emit at 1.
  apply Z.ltb_lt in Hi. rewrite Hi.
  unfold bind, lift, time_sleep. cbn [Py.gt_int].
  assert ((0 <? dl) = true) as -> by (apply Z.ltb_lt; unfold max_sleep in Hdl; lia).
  assert ((dl <=? max_sleep) = false) as -> by (apply Z.leb_gt; exact Hdl).
  eexists. split; [rewrite <- !app_assoc; reflexivity|].
  destruct Hlogs as [-> | [l ->]]; repeat split.
Qed.



(** X25: a delay of more than 9223372036 seconds is not one [time.sleep]
    takes, and its [OverflowError] is not handled: with two or more enabled
    queries the run makes the first search only, then ends with status 1
    and without a report. *)
Theorem main_sleep_overflow (env : environment) (a : args) (config : json)
    (n dl : Z) (q1 q2 : json) (qs : list json) :
  json_files env (a_config a) = JSONFile config ->
  wf_config config = true ->
  history_ok env a = true ->
  outcome_ok (net env 0%nat) = true ->
  config_enabled config = q1 :: q2 :: qs ->
  a_dry_run a = false ->
  nonempty (a_api_key a) = true ->
  config_setting config "results_per_query" (JNum 10) = JNum n ->
  config_setting config "delay_between_queries_seconds" (JNum 2) = JNum dl ->
  max_sleep < dl ->
  fst (run env a) = Raise OverflowError /\
  exit_status (fst (run env a)) = 1 /\
  posts (snd (run env a)) =
    [query_payload n (a_api_key a) (config_setting config "days_back" (JNum 7)) q1] /\
  sleeps (snd (run env a)) = [] /\
  writes (snd (run env a)) = [] /\
  stdouts (snd (run env a)) = [].
Proof.
  intros Hfile Hwf Hread Hnet Hen Hdry Hkey Hn' Hdl' Hmax.
  destruct (wf_config_setting config Hwf)
    as (f & n0 & dl0 & Hf & Hn & Hdl & Hn0 & Hdl0 & Hdb).
  assert (n0 = n) as -> by congruence. assert (dl0 = dl) as -> by congruence.
  pose proof (enabled_queries_shape config (wf_config_shape config Hwf)) as Hq.
  pose proof (wf_config_enabled config Hwf) as Hqs. rewrite Hen in Hqs.
  cbn [forallb] in Hqs. apply andb_prop in Hqs as [Hq1 _].
  destruct (query_step_overflow env n dl (Py.dict_get f "days_back" (JNum 7)) (a_api_key a)
              (length (q1 :: q2 :: qs)) 0%nat q1 (initial_state env a) [] Hq1 Hmax)
    as (evs & Hstep & Hposts & Hsl & Hstd & Hwr); [cbn [length]; lia | exact Hnet |].
  assert (run env a = (Raise OverflowError, evs)) as ->.
  { run_main. rewrite Hfile, Hf, Hq, Hen. cbn [Py.get]. rewrite Hn, Hdl.
    rewrite Hdry, Hkey, (history_ok_read env a Hread). cbn [negb query_loop].
    fold (initial_state env a). unfold bind. rewrite Hstep. reflexivity. }
  cbn [fst snd]. rewrite Hdb. repeat split; assumption.
Qed.

Lemma main_sleep_overflow_witness :
  let config :=
    JObj [ ("settings", JObj [ ("delay_between_queries_seconds", JNum 10000000000) ]);
           ("queries", JArr [ JObj [ ("name", JStr "lever");
                                     ("string", JStr "site:jobs.lever.co analyst") ];
                              JObj [ ("name", JStr "greenhouse");
                                     ("string", JStr "site:boards.greenhouse.io analyst") ] ]) ] in
  let env := {| net := failing_network; json_files := fun _ => JSONFile config;
                text_files := fun _ => None; today := "2024-05-01";
                read_error := fun _ => None; write_error := fun _ => None |} in
  let a := example_args "tvly-key" in
  fst (run env a) = Raise OverflowError /\
  exit_status (fst (run env a)) = 1 /\
  posts (snd (run env a)) =
    [query_payload 10 "tvly-key" (config_setting config "days_back" (JNum 7))
       (JObj [ ("name", JStr "lever"); ("string", JStr "site:jobs.lever.co analyst") ])] /\
  sleeps (snd (run env a)) = [] /\
  writes (snd (run env a)) = [] /\
  stdouts (snd (run env a)) = [].
Proof.
  intros config env a.
  apply (main_sleep_overflow env a config 10 10000000000
           (JObj [ ("name", JStr "lever"); ("string", JStr "site:jobs.lever.co analyst") ])
           (JObj [ ("name", JStr "greenhouse");
                   ("string", JStr "site:boards.greenhouse.io analyst") ])
           []); try reflexivity.
Defined.

(** X26: a history file that exists and cannot be read is not handled
    either: the error of [read_text] ends the run with status 1 before any
    search is made and before anything is printed. *)
Theorem main_history_unreadable (env : environment) (a : args) (config : json)
    (text : string) (e : exn) :
  json_files env (a_config a) = JSONFile config ->
  wf_config config = true ->
  config_enabled config <> [] ->
  a_dry_run a = false ->
  nonempty (a_api_key a) = true ->
  text_files env (a_history a) = Some text ->
  read_error env (a_history a) = Some e ->
  (forall code, e <> SystemExit code) ->
  run env a = (Raise e, []) /\
  exit_status (fst (run env a)) = 1.
Proof.
  intros Hfile Hwf Hen Hdry Hkey Htext Herr He.
  destruct (wf_config_setting config Hwf) as (f & n & dl & Hf & Hn & Hdl & _).
  pose proof (enabled_queries_shape config (wf_config_shape config Hwf)) as Hq.
  assert (run env a = (Raise e, [])) as ->.
  { run_main. rewrite Hfile, Hf, Hq. cbn [Py.get]. rewrite Hn, Hdl.
    destruct (config_enabled config) as [|q qs] eqn:E; [congruence|].
    rewrite Hdry, Hkey. cbn [negb]. unfold read_job_history. rewrite Htext, Herr.
    reflexivity. }
  split; [reflexivity|]. cbn [fst].
  destruct e; try reflexivity. exfalso. apply (He code). reflexivity.
Qed.

Lemma main_history_unreadable_witness :
  let env := {| net := example_network; json_files := fun _ => JSONFile example_config;
                text_files := fun _ => Some "https://jobs.lever.co/old/3";
                today := "2024-05-01";
                read_error := fun _ => Some OSError; write_error := fun _ => None |} in
  let a := example_args "tvly-key" in
  run env a = (Raise OSError, []) /\
  exit_status (fst (run env a)) = 1.
Proof.
  intros env a.
  apply (main_history_unreadable env a example_config "https://jobs.lever.co/old/3" OSError);
    try reflexivity; discriminate.
Defined.

End RunFailures.
